(** * api-rest-express: the in-memory user store of [app.js]

    A shallow embedding of the route handlers of [src/app.js] and of the two
    helpers [existeUsuario] and [validarUsuario], followed by the properties
    of the store that the specification states.

    JavaScript strings are sequences of UTF-16 code units, objects live in a
    heap and the array [usuarios] holds references to them, and every handler
    is a computation over the store and the response object [res]. *)

From Stdlib Require Import ZArith NArith List Ascii String Lia Bool.
From stdpp Require Import base tactics option list.
Import ListNotations.

Local Open Scope Z_scope.
Set Warnings "-register-all".

(** ** JavaScript values *)

Module JS.

(** A string is the list of its UTF-16 code units; [length] is the
    JavaScript [length] property. *)
Abbreviation jsstring := (list N).

(** An ASCII literal as a JavaScript string. *)
Definition js (s : string) : jsstring :=
  map N_of_ascii (list_ascii_of_string s).

(** The code unit of the double quote. *)
Definition comilla : N := 34%N.

(** What a parsed request body can hold under a key: JSON values, and
    [undefined] when the key is absent.  Numbers are represented by their
    integer part only: no function below looks inside a number. *)
Inductive valor : Type :=
| VUndefined
| VNull
| VBool (b : bool)
| VNum (n : Z)
| VStr (s : jsstring)
| VArr (elems : list valor)
| VObj (campos : list (jsstring * valor)).

(** *** [parseInt(string)] with no radix (ECMAScript, sec. parseInt) *)

(** WhiteSpace and LineTerminator code units. *)
Definition es_espacio (c : N) : bool :=
  ((9 <=? c) && (c <=? 13) || (c =? 32) || (c =? 160) || (c =? 5760)
   || (8192 <=? c) && (c <=? 8202) || (c =? 8232) || (c =? 8233)
   || (c =? 8239) || (c =? 8287) || (c =? 12288) || (c =? 65279))%N.

Fixpoint quita_espacios (s : jsstring) : jsstring :=
  match s with
  | c :: r => if es_espacio c then quita_espacios r else s
  | [] => []
  end.

(** The value of a code unit as a digit in radix [R], if it is one. *)
Definition digito (R : Z) (c : N) : option Z :=
  let v :=
    if ((48 <=? c) && (c <=? 57))%N then Some (Z.of_N c - 48)
    else if ((97 <=? c) && (c <=? 122))%N then Some (Z.of_N c - 97 + 10)
    else if ((65 <=? c) && (c <=? 90))%N then Some (Z.of_N c - 65 + 10)
    else None in
  match v with
  | Some d => if d <? R then Some d else None
  | None => None
  end.

(** The longest prefix of radix-[R] digits, read as an integer; [acc] is
    [None] until a first digit has been read. *)
Fixpoint digitos (R : Z) (s : jsstring) (acc : option Z) : option Z :=
  match s with
  | c :: r =>
      match digito R c with
      | Some d => digitos R r (Some (R * default 0 acc + d))
      | None => acc
      end
  | [] => acc
  end.

(** [parseInt]: [None] stands for [NaN].  The result is the exact integer;
    the rounding of integers beyond 2^53 is not represented (no id of the
    store comes near it). *)
Definition parseInt (s : jsstring) : option Z :=
  let s1 := quita_espacios s in
  let '(signo, s2) :=
    match s1 with
    | 45%N :: r => (-1, r)
    | 43%N :: r => (1, r)
    | _ => (1, s1)
    end in
  let '(R, s3) :=
    match s2 with
    | 48%N :: 120%N :: r => (16, r)
    | 48%N :: 88%N :: r => (16, r)
    | _ => (10, s2)
    end in
  match digitos R s3 None with
  | Some m => Some (signo * m)
  | None => None
  end.

(** [n === parseInt(id)] for a number [n]: [NaN] equals nothing. *)
Definition igual_estricto (n : Z) (p : option Z) : bool :=
  match p with
  | Some m => n =? m
  | None => false
  end.

End JS.

Import JS.

(** ** The validator: [Joi.object({nombre: Joi.string().min(3).required()})] *)

Module Joi.

(** One item of [error.details]. *)
Record Detalle := mkDetalle {
  message : jsstring;
  tipo : jsstring
}.

Record ValidationError := mkValidationError {
  details : list Detalle
}.

(** The object under validation, [{nombre: nom}]. *)
Record Objeto := mkObjeto {
  o_nombre : valor
}.

(** The result of [schema.validate]: [error] is [undefined] on success. *)
Record Resultado := mkResultado {
  value : Objeto;
  error : option ValidationError
}.

Definition etiqueta : jsstring := comilla :: js "nombre" ++ [comilla].

Definition falla (o : Objeto) (t msg : string) : Resultado :=
  {| value := o;
     error := Some {| details :=
       [ {| message := etiqueta ++ js msg; tipo := js t |} ] |} |}.

(** Modelled from the spec: the joi package is not part of the sources.  The
    spec gives the rule of the schema (the name is required and has at least
    three characters, the value is returned as it came, the error carries a
    message); the order of the checks and the messages are the ones the
    package documents for [string()], [min()] and [required()]: a missing key
    is [any.required], a value that is not a string is [string.base] (there is
    no conversion to string), the empty string is [string.empty], and a
    shorter string is [string.min], whose limit counts code units.  Validation
    stops at the first error. *)
Definition validate (o : Objeto) : Resultado :=
  match o_nombre o with
  | VUndefined => falla o "any.required" " is required"
  | VStr s =>
      match s with
      | [] => falla o "string.empty" " is not allowed to be empty"
      | _ =>
          if (length s <? 3)%nat
          then falla o "string.min" " length must be at least 3 characters long"
          else {| value := o; error := None |}
      end
  | _ => falla o "string.base" " must be a string"
  end.

End Joi.

(** [function validarUsuario(nom)] *)
Definition validarUsuario (nom : valor) : Joi.Resultado :=
  Joi.validate {| Joi.o_nombre := nom |}.


(** ** The store, the response object and the handlers' monad *)

(** A reference to an object of the heap. *)
Abbreviation loc := nat.

(** A user object [{id, nombre}].  [id] is always a number ([usuarios.length
    + 1] or a literal); [nombre] holds whatever value was assigned to it. *)
Record Usuario := mkUsuario {
  id : Z;
  nombre : valor
}.

(** The state that outlives a request: the heap of user objects (a reference
    is an index in it; an object is never moved) and the array [usuarios] of
    references. *)
Record Almacen := mkAlmacen {
  monton : list Usuario;
  usuarios : list loc
}.

(** The body of a response as Express writes it: a string is sent as text
    (the Content-Type header, which Express sets to text/html for a string,
    is not represented), an object or an array as its JSON text (a copy of
    its fields at the time of the call), [undefined] as an empty body. *)
Inductive Cuerpo : Type :=
| Texto (s : jsstring)
| JsonUsuario (u : Usuario)
| JsonLista (us : list Usuario)
| SinCuerpo.

Record Respuesta := mkRespuesta {
  codigo : Z;
  cuerpo : Cuerpo
}.

(** The state of one request: the store, the response object [res] (its
    [statusCode] and what it has written so far, oldest first) and the
    arguments of the calls of [validarUsuario] made so far, oldest first. *)
Record Mundo := mkMundo {
  almacen : Almacen;
  statusCode : Z;
  enviadas : list Respuesta;
  validadas : list valor
}.

Inductive Excepcion : Type :=
| ERR_HTTP_HEADERS_SENT
| TypeError.

(** The outcome of a computation: a value, or a thrown exception, with the
    state reached. *)
Inductive Fin (A : Type) : Type :=
| Normal (a : A) (w : Mundo)
| Lanza (e : Excepcion) (w : Mundo).
Arguments Normal {A} a w.
Arguments Lanza {A} e w.

Definition M (A : Type) : Type := Mundo -> Fin A.

#[global] Instance M_ret : MRet M := fun A a w => Normal a w.
#[global] Instance M_bind : MBind M := fun A B f c w =>
  match c w with
  | Normal a w' => f a w'
  | Lanza e w' => Lanza e w'
  end.

Definition lanza {A} (e : Excepcion) : M A := fun w => Lanza e w.

Definition mundo_de {A} (r : Fin A) : Mundo :=
  match r with
  | Normal _ w => w
  | Lanza _ w => w
  end.

Definition con_almacen (a : Almacen) (w : Mundo) : Mundo :=
  {| almacen := a; statusCode := statusCode w;
     enviadas := enviadas w; validadas := validadas w |}.

Definition lee_almacen : M Almacen := fun w => Normal (almacen w) w.
Definition pon_almacen (a : Almacen) : M unit :=
  fun w => Normal tt (con_almacen a w).

(** *** The response object *)

(** What the handlers pass to [res.send]. *)
Inductive Enviable : Type :=
| EStr (s : jsstring)
| ERef (l : loc)
| EUsuarios
| EUndef.

(** [res.status(code)] *)
Definition status (code : Z) : M unit := fun w =>
  Normal tt {| almacen := almacen w; statusCode := code;
               enviadas := enviadas w; validadas := validadas w |}.

(** The body of [res.send(v)]; only a reference to no object has none. *)
Definition serializa (a : Almacen) (v : Enviable) : option Cuerpo :=
  match v with
  | EStr s => Some (Texto s)
  | ERef l => JsonUsuario <$> monton a !! l
  | EUsuarios => JsonLista <$> mapM (fun l => monton a !! l) (usuarios a)
  | EUndef => Some SinCuerpo
  end.

(** [res.send(v)].  The first call writes the response with the current
    status code.  Once the response is written, a call with a body sets a
    header and throws, and a call with [undefined] sets none and ends the
    response again, which does nothing. *)
Definition send (v : Enviable) : M unit := fun w =>
  match enviadas w, v with
  | [], _ =>
      match serializa (almacen w) v with
      | Some c =>
          Normal tt {| almacen := almacen w; statusCode := statusCode w;
                       enviadas := [ {| codigo := statusCode w; cuerpo := c |} ];
                       validadas := validadas w |}
      | None => Lanza TypeError w
      end
  | _ :: _, EUndef => Normal tt w
  | _ :: _, _ => Lanza ERR_HTTP_HEADERS_SENT w
  end.

(** *** The helpers *)

(** [usuarios.find(u => u.id === parseInt(id))] on the store [a]. *)
Definition coincide (a : Almacen) (id0 : jsstring) (l : loc) : bool :=
  match monton a !! l with
  | Some u => igual_estricto (id u) (parseInt id0)
  | None => false
  end.

Definition busca (a : Almacen) (id0 : jsstring) : option loc :=
  snd <$> list_find (fun l => coincide a id0 l = true) (usuarios a).

(** [function existeUsuario(id)]: the reference found, or [undefined]. *)
Definition existeUsuario (id0 : jsstring) : M (option loc) :=
  a ← lee_almacen; mret (busca a id0).

(** A call of [validarUsuario] from a handler. *)
Definition llama_validarUsuario (nom : valor) : M Joi.Resultado := fun w =>
  Normal (validarUsuario nom)
    {| almacen := almacen w; statusCode := statusCode w;
       enviadas := enviadas w; validadas := validadas w ++ [nom] |}.

(** [error.details[0].message] *)
Definition primer_mensaje (e : Joi.ValidationError) : M jsstring :=
  match Joi.details e with
  | d :: _ => mret (Joi.message d)
  | [] => lanza TypeError
  end.

Definition no_encontrado : jsstring := js "El usuario no se encuentra".

(** The argument of [res.send(usuario)] for the result of a lookup. *)
Definition enviable (usuario : option loc) : Enviable :=
  match usuario with
  | Some l => ERef l
  | None => EUndef
  end.

(** The object literal [{id: ..., nombre: ...}]: a new object of the heap. *)
Definition nuevo (u : Usuario) : M loc := fun w =>
  let a := almacen w in
  Normal (length (monton a))
    (con_almacen {| monton := monton a ++ [u]; usuarios := usuarios a |} w).

(** [usuarios.push(l)] *)
Definition push (l : loc) : M unit :=
  a ← lee_almacen;
  pon_almacen {| monton := monton a; usuarios := usuarios a ++ [l] |}.

(** [usuario.nombre = v], on the object that [l] refers to. *)
Definition asigna_nombre (l : loc) (v : valor) : M unit :=
  a ← lee_almacen;
  pon_almacen
    {| monton := alter (fun u => {| id := id u; nombre := v |}) l (monton a);
       usuarios := usuarios a |}.

(** [usuarios.indexOf(l)]: the first index that holds the reference [l],
    or -1. *)
Definition indexOf (l : loc) (us : list loc) : Z :=
  match list_find (fun x => x = l) us with
  | Some (i, _) => Z.of_nat i
  | None => -1
  end.

(** [usuarios.splice(index, 1)]: a negative start counts from the end, the
    start is clamped to the array, and at most one element is removed. *)
Definition splice1 (index : Z) (us : list loc) : list loc :=
  let len := Z.of_nat (length us) in
  let start := if index <? 0 then Z.max (len + index) 0 else Z.min index len in
  let n := Z.min 1 (len - start) in
  take (Z.to_nat start) us ++ drop (Z.to_nat (start + n)) us.

(** ** The route handlers *)

(** [app.get('/', ...)] *)
Definition get_raiz : M unit :=
  send (EStr (js "Hola mundo desde Express!")).

(** [app.get('/api/usuarios', ...)] *)
Definition get_usuarios : M unit :=
  send EUsuarios.

(** [app.get('/api/usuarios/:id', ...)]: the branch of [!usuario] does not
    return, the last [res.send] runs in both cases. *)
Definition get_usuario (id0 : jsstring) : M unit :=
  usuario ← existeUsuario id0;
  (if usuario is None
   then status 404 ;; send (EStr no_encontrado)
   else mret tt) ;;
  send (enviable usuario).

(** [app.post('/api/usuarios', ...)] *)
Definition post_usuarios (body_nombre : valor) : M unit :=
  r ← llama_validarUsuario body_nombre;
  match Joi.error r with
  | None =>
      a ← lee_almacen;
      usuario ← nuevo {| id := Z.of_nat (length (usuarios a)) + 1;
                         nombre := body_nombre |};
      push usuario ;;
      send (ERef usuario)
  | Some e =>
      mensaje ← primer_mensaje e;
      status 400 ;; send (EStr mensaje)
  end.

(** [app.put('/api/usuarios/:id', ...)] *)
Definition put_usuario (id0 : jsstring) (body_nombre : valor) : M unit :=
  usuario ← existeUsuario id0;
  match usuario with
  | None => status 404 ;; send (EStr no_encontrado)
  | Some l =>
      r ← llama_validarUsuario body_nombre;
      match Joi.error r with
      | Some e =>
          mensaje ← primer_mensaje e;
          status 400 ;; send (EStr mensaje)
      | None =>
          asigna_nombre l (Joi.o_nombre (Joi.value r)) ;;
          send (ERef l)
      end
  end.

(** [app.delete('/api/usuarios/:id', ...)] *)
Definition delete_usuario (id0 : jsstring) : M unit :=
  usuario ← existeUsuario id0;
  match usuario with
  | None => status 404 ;; send (EStr no_encontrado)
  | Some l =>
      a ← lee_almacen;
      let index := indexOf l (usuarios a) in
      pon_almacen {| monton := monton a;
                     usuarios := splice1 index (usuarios a) |} ;;
      send (ERef l)
  end.

(** ** Requests *)

Inductive Peticion : Type :=
| GET_raiz
| GET_usuarios
| GET_usuario (id0 : jsstring)
| POST_usuarios (body_nombre : valor)
| PUT_usuario (id0 : jsstring) (body_nombre : valor)
| DELETE_usuario (id0 : jsstring).

Definition maneja (p : Peticion) : M unit :=
  match p with
  | GET_raiz => get_raiz
  | GET_usuarios => get_usuarios
  | GET_usuario id0 => get_usuario id0
  | POST_usuarios n => post_usuarios n
  | PUT_usuario id0 n => put_usuario id0 n
  | DELETE_usuario id0 => delete_usuario id0
  end.

(** A request starts with a fresh response object, whose status is 200. *)
Definition nuevo_mundo (a : Almacen) : Mundo :=
  {| almacen := a; statusCode := 200; enviadas := []; validadas := [] |}.

Definition atiende (p : Peticion) (a : Almacen) : Fin unit :=
  maneja p (nuevo_mundo a).

(** The store after a request, and what the request wrote. *)
Definition almacen_tras (p : Peticion) (a : Almacen) : Almacen :=
  almacen (mundo_de (atiende p a)).

Definition respuestas (p : Peticion) (a : Almacen) : list Respuesta :=
  enviadas (mundo_de (atiende p a)).

(** The store after a sequence of requests, served one after the other. *)
Definition atiende_todas (ps : list Peticion) (a : Almacen) : Almacen :=
  fold_left (fun a p => almacen_tras p a) ps a.

(** The array [usuarios] as the program starts. *)
Definition inicial : Almacen :=
  {| monton := [ {| id := 1; nombre := VStr (js "Juan") |};
                 {| id := 2; nombre := VStr (js "Ana") |};
                 {| id := 3; nombre := VStr (js "Karen") |};
                 {| id := 4; nombre := VStr (js "Luis") |} ];
     usuarios := [0; 1; 2; 3]%nat |}.

(** The users of the store in the order of the array, and their ids. *)
Definition registros (a : Almacen) : list (option Usuario) :=
  map (fun l => monton a !! l) (usuarios a).

Definition ids (a : Almacen) : list (option Z) :=
  map (fun l => id <$> monton a !! l) (usuarios a).


(** ** Records of the store and lookup by id *)

(** The array holds at index [i] the reference [l], which refers to the
    user object [u]. *)
Definition es_registro (a : Almacen) (i : nat) (l : loc) (u : Usuario) : Prop :=
  usuarios a !! i = Some l /\ monton a !! l = Some u.

(** [u], at index [i], is the first record whose id is the integer that
    [id0] parses to. *)
Definition primero_con_id (a : Almacen) (id0 : jsstring)
    (i : nat) (l : loc) (u : Usuario) : Prop :=
  es_registro a i l u /\
  parseInt id0 = Some (id u) /\
  forall j l' u', (j < i)%nat -> es_registro a j l' u' ->
    parseInt id0 <> Some (id u').

(** No record of the store has the id that [id0] parses to. *)
Definition ninguno_con_id (a : Almacen) (id0 : jsstring) : Prop :=
  forall i l u, es_registro a i l u -> parseInt id0 <> Some (id u).

(** The answer to an unknown id. *)
Definition respuesta_404 : Respuesta :=
  {| codigo := 404; cuerpo := Texto no_encontrado |}.

(** The [nombre] that a POST answered with 200 leaves in the record at the
    end of the array. *)
Definition nombre_almacenado_post (a : Almacen) (nom : valor) : option valor :=
  let a' := almacen_tras (POST_usuarios nom) a in
  if decide (map codigo (respuestas (POST_usuarios nom) a) = [200]) then
    l ← last (usuarios a'); u ← monton a' !! l; Some (nombre u)
  else None.

(** The [nombre] that a PUT answered with 200 leaves in the record it
    found. *)
Definition nombre_almacenado_put (a : Almacen) (id0 : jsstring) (nom : valor)
    : option valor :=
  let a' := almacen_tras (PUT_usuario id0 nom) a in
  if decide (map codigo (respuestas (PUT_usuario id0 nom) a) = [200]) then
    l ← busca a id0; u ← monton a' !! l; Some (nombre u)
  else None.

(** The name of the examples, [{nombre: 'Bob'}]. *)
Definition Bob : valor := VStr (js "Bob").

(** Every reference of the array is a reference to an object. *)
Definition refs_validas (a : Almacen) : Prop :=
  Forall (fun l => (l < length (monton a))%nat) (usuarios a).

(** The ids of the array are 1, 2, ..., its length, in this order. *)
Definition ids_densos (a : Almacen) : Prop :=
  ids a = map (fun k => Some (Z.of_nat k)) (seq 1 (length (usuarios a))).

(** No two records of the array have the same id. *)
Definition ids_distintos (a : Almacen) : Prop :=
  forall i j li lj ui uj,
    es_registro a i li ui -> es_registro a j lj uj -> id ui = id uj -> i = j.

Definition es_delete (p : Peticion) : bool :=
  match p with
  | DELETE_usuario _ => true
  | _ => false
  end.

(** A name that the schema accepts: a string of at least three code
    units. *)
Definition nombre_valido (v : valor) : Prop :=
  exists s, v = VStr s /\ (3 <= length s)%nat.

(** The state of a store that the handlers keep: the references of the
    array are valid and pairwise distinct, and every record has a valid
    nombre and a positive id. *)
Definition bien_formado (a : Almacen) : Prop :=
  refs_validas a /\ NoDup (usuarios a) /\
  forall i l u, es_registro a i l u -> nombre_valido (nombre u) /\ 1 <= id u.

(** The greeting of the root route. *)
Definition saludo : jsstring := js "Hola mundo desde Express!".

(** What a request does to the store [a], case by case: the store it
    leaves, the response it writes and the names it has validated. *)
Inductive efecto (a : Almacen)
    : Peticion -> Almacen -> Respuesta -> list valor -> Prop :=
| ef_raiz :
    efecto a GET_raiz a {| codigo := 200; cuerpo := Texto saludo |} []
| ef_lista us :
    Forall2 (fun l u => monton a !! l = Some u) (usuarios a) us ->
    efecto a GET_usuarios a {| codigo := 200; cuerpo := JsonLista us |} []
| ef_get id0 i l u :
    primero_con_id a id0 i l u ->
    efecto a (GET_usuario id0) a
      {| codigo := 200; cuerpo := JsonUsuario u |} []
| ef_get_404 id0 :
    ninguno_con_id a id0 ->
    efecto a (GET_usuario id0) a respuesta_404 []
| ef_post nom :
    nombre_valido nom ->
    let u := {| id := Z.of_nat (length (usuarios a)) + 1; nombre := nom |} in
    efecto a (POST_usuarios nom)
      {| monton := monton a ++ [u];
         usuarios := usuarios a ++ [length (monton a)] |}
      {| codigo := 200; cuerpo := JsonUsuario u |} [nom]
| ef_post_400 nom e d :
    ~ nombre_valido nom ->
    Joi.error (validarUsuario nom) = Some e ->
    Joi.details e = [d] -> Joi.message d <> [] ->
    efecto a (POST_usuarios nom) a
      {| codigo := 400; cuerpo := Texto (Joi.message d) |} [nom]
| ef_put id0 nom i l u :
    primero_con_id a id0 i l u ->
    nombre_valido nom ->
    let u' := {| id := id u; nombre := nom |} in
    efecto a (PUT_usuario id0 nom)
      {| monton := <[l := u']> (monton a); usuarios := usuarios a |}
      {| codigo := 200; cuerpo := JsonUsuario u' |} [nom]
| ef_put_400 id0 nom i l u e d :
    primero_con_id a id0 i l u ->
    ~ nombre_valido nom ->
    Joi.error (validarUsuario nom) = Some e ->
    Joi.details e = [d] -> Joi.message d <> [] ->
    efecto a (PUT_usuario id0 nom) a
      {| codigo := 400; cuerpo := Texto (Joi.message d) |} [nom]
| ef_put_404 id0 nom :
    ninguno_con_id a id0 ->
    efecto a (PUT_usuario id0 nom) a respuesta_404 []
| ef_delete id0 i l u :
    primero_con_id a id0 i l u ->
    efecto a (DELETE_usuario id0)
      {| monton := monton a; usuarios := delete i (usuarios a) |}
      {| codigo := 200; cuerpo := JsonUsuario u |} []
| ef_delete_404 id0 :
    ninguno_con_id a id0 ->
    efecto a (DELETE_usuario id0) a respuesta_404 [].

Section Busca.
Context (a : Almacen) (id0 : jsstring).

Lemma igual_estricto_true n p : igual_estricto n p = true <-> p = Some n.
Proof.
  destruct p as [m|]; simpl; [|split; discriminate].
  rewrite Z.eqb_eq. split; [intros ->; reflexivity | intros [= ->]; reflexivity].
Qed.

Lemma coincide_true l :
  coincide a id0 l = true <->
  exists u, monton a !! l = Some u /\ parseInt id0 = Some (id u).
Proof.
  unfold coincide. destruct (monton a !! l) as [u|].
  - rewrite igual_estricto_true. split; [eauto|].
    intros (u' & [= <-] & H); exact H.
  - split; [discriminate | intros (u' & [=] & _)].
Qed.

Lemma busca_Some l :
  busca a id0 = Some l <-> exists i u, primero_con_id a id0 i l u.
Proof.
  unfold busca. split.
  - destruct (list_find _ _) as [[i x]|] eqn:E; [|discriminate].
    intros [= ->]. apply list_find_Some in E as (Hi & Hc & Hmin).
    apply coincide_true in Hc as (u & Hu & Hp).
    exists i, u. repeat split; try assumption.
    intros j l' u' Hj [Hl' Hu'] Hp'.
    apply (Hmin j l' Hl' Hj). apply coincide_true. eauto.
  - intros (i & u & [Hi Hu] & Hp & Hmin).
    assert (E : list_find (fun l => coincide a id0 l = true) (usuarios a)
                = Some (i, l)); [|rewrite E; reflexivity].
    apply list_find_Some. repeat split; [assumption | apply coincide_true; eauto |].
    intros j y Hy Hj (u' & Hu' & Hp')%coincide_true.
    exact (Hmin j y u' Hj (conj Hy Hu') Hp').
Qed.

Lemma busca_None : busca a id0 = None <-> ninguno_con_id a id0.
Proof.
  unfold busca. rewrite fmap_None, list_find_None, Forall_lookup. split.
  - intros H i l u [Hl Hu] Hp. apply (H i l Hl). apply coincide_true. eauto.
  - intros H i l Hl (u & Hu & Hp)%coincide_true. exact (H i l u (conj Hl Hu) Hp).
Qed.

(** The two outcomes of a lookup. *)
Lemma busca_caso :
  (exists i l u, busca a id0 = Some l /\ primero_con_id a id0 i l u) \/
  (busca a id0 = None /\ ninguno_con_id a id0).
Proof.
  destruct (busca a id0) as [l|] eqn:E.
  - left. apply busca_Some in E as (i & u & H). eauto 6.
  - right. split; [reflexivity | apply busca_None, E].
Qed.

Lemma primero_con_id_busca i l u :
  primero_con_id a id0 i l u -> busca a id0 = Some l.
Proof. intros H. apply busca_Some. eauto. Qed.

(** The first record with a given id is one record. *)
Lemma primero_con_id_unico i l u i' l' u' :
  primero_con_id a id0 i l u -> primero_con_id a id0 i' l' u' ->
  i = i' /\ l = l' /\ u = u'.
Proof.
  intros ([Hl Hu] & Hp & Hmin) ([Hl' Hu'] & Hp' & Hmin').
  assert (i = i') as <-.
  { destruct (Nat.lt_trichotomy i i') as [Hlt|[Heq|Hgt]]; [|exact Heq|].
    - destruct (Hmin' i l u Hlt (conj Hl Hu) Hp).
    - destruct (Hmin i' l' u' Hgt (conj Hl' Hu') Hp'). }
  rewrite Hl in Hl'. injection Hl' as <-.
  rewrite Hu in Hu'. injection Hu' as <-. auto.
Qed.
End Busca.

(** ** What each handler does *)

Ltac desarrolla :=
  unfold atiende, maneja, get_usuario, post_usuarios, put_usuario,
    delete_usuario, existeUsuario, llama_validarUsuario, primer_mensaje,
    push, nuevo, asigna_nombre, lee_almacen, pon_almacen, con_almacen,
    status, send, lanza, nuevo_mundo, mbind, M_bind, mret, M_ret;
  cbn.

Lemma get_usuario_encontrado a id0 l u :
  busca a id0 = Some l -> monton a !! l = Some u ->
  atiende (GET_usuario id0) a =
  Normal tt {| almacen := a; statusCode := 200;
               enviadas := [ {| codigo := 200; cuerpo := JsonUsuario u |} ];
               validadas := [] |}.
Proof. intros Hb Hu. desarrolla. rewrite Hb. cbn. rewrite Hu. reflexivity. Qed.

Lemma get_usuario_ausente a id0 :
  busca a id0 = None ->
  atiende (GET_usuario id0) a =
  Normal tt {| almacen := a; statusCode := 404;
               enviadas := [respuesta_404]; validadas := [] |}.
Proof. intros Hb. desarrolla. rewrite Hb. reflexivity. Qed.

(** *** The validator *)

Ltac abre_validar :=
  cbv beta iota delta [validarUsuario Joi.validate Joi.o_nombre].

Lemma validarUsuario_value nom :
  Joi.value (validarUsuario nom) = {| Joi.o_nombre := nom |}.
Proof.
  abre_validar.
  destruct nom as [| | | |s| |]; try reflexivity.
  destruct s as [|c s]; [reflexivity|].
  destruct (length (c :: s) <? 3)%nat; reflexivity.
Qed.

Lemma validarUsuario_acepta nom :
  Joi.error (validarUsuario nom) = None <->
  exists s, nom = VStr s /\ (3 <= length s)%nat.
Proof.
  abre_validar. split.
  - destruct nom as [| | | |s| |]; try discriminate.
    destruct s as [|c s]; [discriminate|].
    destruct (Nat.ltb_spec (length (c :: s)) 3) as [Hlt|Hge]; [discriminate|].
    intros _. exists (c :: s). split; [reflexivity | exact Hge].
  - intros (s & -> & Hs). destruct s as [|c s]; [simpl in Hs; lia|].
    destruct (Nat.ltb_spec (length (c :: s)) 3) as [Hlt|Hge]; [lia | reflexivity].
Qed.

Lemma validarUsuario_rechaza nom e :
  Joi.error (validarUsuario nom) = Some e ->
  exists d, Joi.details e = [d] /\ Joi.message d <> [].
Proof.
  abre_validar.
  destruct nom as [| | | |s| |]; try (intros [= <-]; eexists; split;
    [reflexivity | discriminate]).
  destruct s as [|c s]; [intros [= <-]; eexists; split;
    [reflexivity | discriminate]|].
  destruct (length (c :: s) <? 3)%nat; [|discriminate].
  intros [= <-]; eexists; split; [reflexivity | discriminate].
Qed.

(** *** POST *)

Lemma post_valido a nom :
  Joi.error (validarUsuario nom) = None ->
  let u := {| id := Z.of_nat (length (usuarios a)) + 1; nombre := nom |} in
  atiende (POST_usuarios nom) a =
  Normal tt
    {| almacen := {| monton := monton a ++ [u];
                     usuarios := usuarios a ++ [length (monton a)] |};
       statusCode := 200;
       enviadas := [ {| codigo := 200; cuerpo := JsonUsuario u |} ];
       validadas := [nom] |}.
Proof.
  intros Hv u. desarrolla. rewrite Hv. cbn.
  rewrite list_lookup_middle by reflexivity. reflexivity.
Qed.

Lemma post_invalido a nom e :
  Joi.error (validarUsuario nom) = Some e ->
  exists d, Joi.details e = [d] /\ Joi.message d <> [] /\
  atiende (POST_usuarios nom) a =
  Normal tt
    {| almacen := a; statusCode := 400;
       enviadas := [ {| codigo := 400; cuerpo := Texto (Joi.message d) |} ];
       validadas := [nom] |}.
Proof.
  intros He. destruct (validarUsuario_rechaza _ _ He) as (d & Hd & Hm).
  exists d. repeat split; try assumption.
  desarrolla. rewrite He. cbn. rewrite Hd. reflexivity.
Qed.

(** *** PUT *)

Lemma put_ausente a id0 nom :
  busca a id0 = None ->
  atiende (PUT_usuario id0 nom) a =
  Normal tt {| almacen := a; statusCode := 404;
               enviadas := [respuesta_404]; validadas := [] |}.
Proof. intros Hb. desarrolla. rewrite Hb. reflexivity. Qed.

Lemma put_invalido a id0 nom l e :
  busca a id0 = Some l ->
  Joi.error (validarUsuario nom) = Some e ->
  exists d, Joi.details e = [d] /\ Joi.message d <> [] /\
  atiende (PUT_usuario id0 nom) a =
  Normal tt
    {| almacen := a; statusCode := 400;
       enviadas := [ {| codigo := 400; cuerpo := Texto (Joi.message d) |} ];
       validadas := [nom] |}.
Proof.
  intros Hb He. destruct (validarUsuario_rechaza _ _ He) as (d & Hd & Hm).
  exists d. repeat split; try assumption.
  desarrolla. rewrite Hb. cbn. rewrite He. cbn. rewrite Hd. reflexivity.
Qed.

Lemma put_valido a id0 nom l u :
  busca a id0 = Some l -> monton a !! l = Some u ->
  Joi.error (validarUsuario nom) = None ->
  let u' := {| id := id u;
               nombre := Joi.o_nombre (Joi.value (validarUsuario nom)) |} in
  atiende (PUT_usuario id0 nom) a =
  Normal tt
    {| almacen := {| monton := <[l := u']> (monton a);
                     usuarios := usuarios a |};
       statusCode := 200;
       enviadas := [ {| codigo := 200; cuerpo := JsonUsuario u' |} ];
       validadas := [nom] |}.
Proof.
  intros Hb Hu Hv u'. desarrolla. rewrite Hb. cbn. rewrite Hv. cbn.
  rewrite list_lookup_alter_eq, Hu. cbn.
  replace (alter _ l (monton a)) with (<[l := u']> (monton a)); [reflexivity|].
  apply list_eq. intros j. destruct (decide (l = j)) as [<-|Hne].
  - rewrite list_lookup_alter_eq, Hu, list_lookup_insert_eq; [reflexivity|].
    apply lookup_lt_Some in Hu. exact Hu.
  - rewrite list_lookup_alter_ne, list_lookup_insert_ne by assumption. reflexivity.
Qed.

(** *** DELETE *)

Lemma indexOf_primero a id0 i l u :
  primero_con_id a id0 i l u -> indexOf l (usuarios a) = Z.of_nat i.
Proof.
  intros ([Hl Hu] & Hp & Hmin). unfold indexOf.
  assert (E : list_find (fun x => x = l) (usuarios a) = Some (i, l));
    [|rewrite E; reflexivity].
  apply list_find_Some. repeat split; [assumption|].
  intros j y Hy Hj ->. exact (Hmin j l u Hj (conj Hy Hu) Hp).
Qed.

Lemma splice1_delete i (us : list loc) :
  (i < length us)%nat -> splice1 (Z.of_nat i) us = delete i us.
Proof.
  intros Hi. unfold splice1.
  destruct (Z.ltb_spec (Z.of_nat i) 0) as [Hneg|_]; [lia|].
  rewrite Z.min_l by lia. rewrite Z.min_l by lia.
  rewrite Nat2Z.id. replace (Z.to_nat (Z.of_nat i + 1)) with (S i) by lia.
  symmetry. apply delete_take_drop.
Qed.

Lemma delete_ausente a id0 :
  busca a id0 = None ->
  atiende (DELETE_usuario id0) a =
  Normal tt {| almacen := a; statusCode := 404;
               enviadas := [respuesta_404]; validadas := [] |}.
Proof. intros Hb. desarrolla. rewrite Hb. reflexivity. Qed.

Lemma delete_encontrado a id0 i l u :
  primero_con_id a id0 i l u ->
  atiende (DELETE_usuario id0) a =
  Normal tt
    {| almacen := {| monton := monton a; usuarios := delete i (usuarios a) |};
       statusCode := 200;
       enviadas := [ {| codigo := 200; cuerpo := JsonUsuario u |} ];
       validadas := [] |}.
Proof.
  intros H. pose proof (primero_con_id_busca _ _ _ _ _ H) as Hb.
  pose proof (indexOf_primero _ _ _ _ _ H) as Hi.
  destruct H as ([Hl Hu] & _). desarrolla. rewrite Hb. cbn.
  rewrite Hu. cbn. rewrite Hi, splice1_delete; [reflexivity|].
  apply lookup_lt_Some in Hl. exact Hl.
Qed.

(** A first record, from the run of the lookup. *)
Lemma primero_por_calculo a id0 i l u :
  list_find (fun l => coincide a id0 l = true) (usuarios a) = Some (i, l) ->
  monton a !! l = Some u ->
  primero_con_id a id0 i l u.
Proof.
  intros E Hu.
  assert (Hb : busca a id0 = Some l) by (unfold busca; rewrite E; reflexivity).
  apply busca_Some in Hb as (i' & u' & H).
  assert (i' = i) as ->.
  { pose proof (primero_con_id_busca _ _ _ _ _ H) as Hb. unfold busca in Hb.
    destruct H as ([Hl _] & _ & Hmin).
    apply list_find_Some in E as (Hi & Hc & Hmin').
    destruct (Nat.lt_trichotomy i i') as [Hlt|[Heq|Hgt]]; [|auto|].
    - apply coincide_true in Hc as (v & Hv & Hp).
      destruct (Hmin i l v Hlt (conj Hi Hv) Hp).
    - destruct (Hmin' i' l Hl Hgt). apply coincide_true.
      rewrite Hu. exists u. split; [reflexivity|].
      apply coincide_true in Hc as (v & Hv & Hp). congruence. }
  destruct H as ([Hl Hu'] & Hp & Hmin).
  assert (u' = u) as -> by congruence.
  repeat split; assumption.
Qed.

(** *** Stores without deletions, and deletions without collisions *)

Lemma ids_densos_NoDup a : ids_densos a -> NoDup (ids a).
Proof.
  intros ->.
  change (NoDup ((fun k => Some (Z.of_nat k)) <$> seq 1 (length (usuarios a)))).
  apply NoDup_fmap_2_strong; [|apply NoDup_seq].
  intros x y _ _ [= H]. lia.
Qed.

Lemma inicial_denso : refs_validas inicial /\ ids_densos inicial.
Proof.
  split; [|reflexivity].
  unfold refs_validas. cbn. repeat constructor.
Qed.

Lemma ids_insert_mismo_id a l u v :
  monton a !! l = Some u ->
  ids {| monton := <[l := {| id := id u; nombre := v |}]> (monton a);
         usuarios := usuarios a |} = ids a.
Proof.
  intros Hu. unfold ids. cbn [monton usuarios]. apply map_ext. intros l'.
  destruct (decide (l = l')) as [<-|Hne].
  - rewrite list_lookup_insert_eq by (apply lookup_lt_Some in Hu; exact Hu).
    rewrite Hu. reflexivity.
  - rewrite list_lookup_insert_ne by assumption. reflexivity.
Qed.

Lemma ids_post a u :
  refs_validas a ->
  ids {| monton := monton a ++ [u];
         usuarios := usuarios a ++ [length (monton a)] |}
  = ids a ++ [Some (id u)].
Proof.
  intros Hr. unfold ids. cbn [monton usuarios]. rewrite map_app. cbn [map].
  rewrite list_lookup_middle by reflexivity. f_equal.
  unfold refs_validas in Hr. induction Hr as [|l us Hl _ IH]; [reflexivity|].
  cbn [map]. rewrite IH, lookup_app_l by exact Hl. reflexivity.
Qed.

(** A request other than DELETE keeps the ids of the array 1, ..., n. *)
Lemma paso_denso p a :
  es_delete p = false ->
  refs_validas a /\ ids_densos a ->
  refs_validas (almacen_tras p a) /\ ids_densos (almacen_tras p a).
Proof.
  intros Hp [Hr Hd]. unfold almacen_tras.
  destruct p as [| |id0|nom|id0 nom|id0]; try discriminate.
  - split; assumption.
  - desarrolla. destruct (mapM _ _); split; assumption.
  - destruct (busca_caso a id0) as [(i & l & u & Hb & ([_ Hu] & _))|[Hb _]].
    + rewrite (get_usuario_encontrado a id0 l u Hb Hu). split; assumption.
    + rewrite (get_usuario_ausente a id0 Hb). split; assumption.
  - destruct (Joi.error (validarUsuario nom)) as [e|] eqn:Ev.
    + destruct (post_invalido a nom e Ev) as (d & _ & _ & E).
      rewrite E. split; assumption.
    + pose proof (post_valido a nom Ev) as E. cbv zeta in E. rewrite E.
      cbn [mundo_de almacen]. split.
      * unfold refs_validas in *. cbn [monton usuarios].
        rewrite length_app. cbn [length]. apply Forall_app. split.
        -- eapply Forall_impl; [exact Hr|]. cbn. intros; lia.
        -- repeat constructor. lia.
      * unfold ids_densos. rewrite ids_post by exact Hr. cbn [usuarios id].
        rewrite length_app. cbn [length]. rewrite Nat.add_1_r, seq_S, map_app.
        rewrite Hd. cbn [map]. do 3 f_equal. lia.
  - destruct (busca_caso a id0) as [(i & l & u & Hb & ([_ Hu] & _))|[Hb _]].
    + destruct (Joi.error (validarUsuario nom)) as [e|] eqn:Ev.
      * destruct (put_invalido a id0 nom l e Hb Ev) as (d & _ & _ & E).
        rewrite E. split; assumption.
      * pose proof (put_valido a id0 nom l u Hb Hu Ev) as E. cbv zeta in E.
        rewrite E. cbn [mundo_de almacen]. split.
        -- unfold refs_validas in *. cbn [monton usuarios].
           rewrite length_insert. exact Hr.
        -- unfold ids_densos. rewrite ids_insert_mismo_id by exact Hu.
           exact Hd.
    + rewrite (put_ausente a id0 nom Hb). split; assumption.
Qed.

(** X13. From a store whose ids are 1, ..., n and whose references are
    valid, requests that delete nothing keep the ids of the array pairwise
    distinct. *)
Lemma sin_delete_ids_distintos ps a :
  forallb (fun p => negb (es_delete p)) ps = true ->
  refs_validas a /\ ids_densos a ->
  NoDup (ids (atiende_todas ps a)).
Proof.
  revert a. induction ps as [|p ps IH]; intros a Hps Ha.
  - apply ids_densos_NoDup, Ha.
  - cbn in Hps. apply andb_prop in Hps as [Hp Hps].
    apply negb_true_iff in Hp. cbn. apply IH; [exact Hps|].
    apply paso_denso; assumption.
Qed.

(** X12. Where no two records have the same id, the GET that follows the
    DELETE of an id that a record has is answered with 404. *)
Lemma delete_luego_get a id0 i l u :
  ids_distintos a -> primero_con_id a id0 i l u ->
  atiende (GET_usuario id0) (almacen_tras (DELETE_usuario id0) a) =
  Normal tt
    {| almacen := {| monton := monton a; usuarios := delete i (usuarios a) |};
       statusCode := 404; enviadas := [respuesta_404]; validadas := [] |}.
Proof.
  intros Hd H. unfold almacen_tras.
  rewrite (delete_encontrado a id0 i l u H). cbn [mundo_de almacen].
  apply get_usuario_ausente, busca_None.
  destruct H as ([Hl Hu] & Hp & Hmin).
  intros j l' u' [Hl' Hu'] Hp'. cbn [monton usuarios] in Hl', Hu'.
  assert (Hid : id u' = id u) by congruence.
  destruct (decide (j < i)%nat) as [Hlt|Hge].
  - rewrite list_lookup_delete_lt in Hl' by exact Hlt.
    exact (Hmin j l' u' Hlt (conj Hl' Hu') Hp').
  - rewrite list_lookup_delete_ge in Hl' by lia.
    pose proof (Hd (S j) i l' l u' u (conj Hl' Hu') (conj Hl Hu) Hid). lia.
Qed.

(** ** The properties of the specification *)

(** C8. For every input id, [existeUsuario] leaves the state as it is and
    returns the first record of the array whose id is the integer that the
    input parses to, or [undefined] when no record of the array has it (also
    when the input parses to no integer). *)
Theorem existeUsuario_primero (id0 : jsstring) (w : Mundo) :
  (exists i l u, existeUsuario id0 w = Normal (Some l) w /\
                 primero_con_id (almacen w) id0 i l u) \/
  (existeUsuario id0 w = Normal None w /\
   ninguno_con_id (almacen w) id0).
Proof.
  destruct (busca_caso (almacen w) id0) as [(i & l & u & Hb & H)|[Hb H]].
  - left. exists i, l, u. split; [|exact H].
    unfold existeUsuario, lee_almacen, mbind, M_bind, mret, M_ret.
    rewrite Hb. reflexivity.
  - right. split; [|exact H].
    unfold existeUsuario, lee_almacen, mbind, M_bind, mret, M_ret.
    rewrite Hb. reflexivity.
Qed.

(** C2. For every id and every store, the handler of GET /api/usuarios/:id
    ends without an exception, leaves the store as it is and has written
    exactly one response: status 200 with the JSON of the first record with
    that id when there is one, status 404 with the text message when there
    is none.  (In the second case the handler goes on to [res.send(undefined)],
    which writes nothing more.) *)
Theorem get_usuario_una_respuesta (id0 : jsstring) (a : Almacen) :
  (exists i l u, primero_con_id a id0 i l u /\
     atiende (GET_usuario id0) a =
     Normal tt {| almacen := a; statusCode := 200;
                  enviadas := [ {| codigo := 200; cuerpo := JsonUsuario u |} ];
                  validadas := [] |}) \/
  (ninguno_con_id a id0 /\
     atiende (GET_usuario id0) a =
     Normal tt {| almacen := a; statusCode := 404;
                  enviadas := [ {| codigo := 404;
                                   cuerpo := Texto no_encontrado |} ];
                  validadas := [] |}).
Proof.
  destruct (busca_caso a id0) as [(i & l & u & Hb & H)|[Hb H]].
  - left. exists i, l, u. split; [exact H|].
    destruct H as ([_ Hu] & _). exact (get_usuario_encontrado a id0 l u Hb Hu).
  - right. split; [exact H | exact (get_usuario_ausente a id0 Hb)].
Qed.

(** C3. For every store and every name that the validator accepts, the
    handler of POST /api/usuarios creates a record whose id is the length of
    the array plus one and whose nombre is the name, appends the reference to
    it at the end of the array, touches no other object, and answers with
    status 200 and that record. *)
Theorem post_crea (a : Almacen) (nom : valor)
    (Hv : Joi.error (validarUsuario nom) = None) :
  let u := {| id := Z.of_nat (length (usuarios a)) + 1; nombre := nom |} in
  let l := length (monton a) in
  atiende (POST_usuarios nom) a =
  Normal tt
    {| almacen := {| monton := monton a ++ [u];
                     usuarios := usuarios a ++ [l] |};
       statusCode := 200;
       enviadas := [ {| codigo := 200; cuerpo := JsonUsuario u |} ];
       validadas := [nom] |} /\
  (monton a ++ [u]) !! l = Some u /\
  last (usuarios a ++ [l]) = Some l /\
  forall l', (l' < length (monton a))%nat ->
    (monton a ++ [u]) !! l' = monton a !! l'.
Proof.
  intros u l. split; [exact (post_valido a nom Hv)|]. split; [|split].
  - apply list_lookup_middle. reflexivity.
  - apply last_snoc.
  - intros l' Hl'. apply lookup_app_l, Hl'.
Qed.

Lemma post_crea_witness :
  Joi.error (validarUsuario Bob) = None /\
  atiende (POST_usuarios Bob) inicial =
  Normal tt
    {| almacen :=
         {| monton := monton inicial ++ [ {| id := 5; nombre := Bob |} ];
            usuarios := [0; 1; 2; 3; 4]%nat |};
       statusCode := 200;
       enviadas := [ {| codigo := 200;
                        cuerpo := JsonUsuario {| id := 5; nombre := Bob |} |} ];
       validadas := [Bob] |}.
Proof.
  split; [reflexivity|].
  apply (post_crea inicial Bob). reflexivity.
Defined.

(** C4. For every candidate name, [validarUsuario] succeeds exactly when the
    name is a string of length at least 3 (the length is the one of the
    JavaScript string); the value it returns holds the name as it came; and
    for every other candidate (absent, a shorter string, or no string at all)
    it fails with an error whose single detail carries a non-empty message. *)
Theorem validarUsuario_regla (nom : valor) :
  (Joi.error (validarUsuario nom) = None <->
   exists s, nom = VStr s /\ (3 <= length s)%nat) /\
  Joi.o_nombre (Joi.value (validarUsuario nom)) = nom /\
  (~ (exists s, nom = VStr s /\ (3 <= length s)%nat) ->
   exists d, Joi.error (validarUsuario nom) =
               Some {| Joi.details := [d] |} /\
             Joi.message d <> []).
Proof.
  split; [apply validarUsuario_acepta|]. split.
  - rewrite validarUsuario_value. reflexivity.
  - intros Hno. destruct (Joi.error (validarUsuario nom)) as [e|] eqn:E.
    + destruct (validarUsuario_rechaza nom e E) as (d & Hd & Hm).
      exists d. split; [|exact Hm]. destruct e as [ds]. simpl in Hd.
      rewrite Hd. reflexivity.
    + destruct Hno. apply validarUsuario_acepta, E.
Qed.

(** C5. For every id that no record of the store has and every body, the
    handler of PUT /api/usuarios/:id answers 404 with the text message,
    leaves the store as it is, and has made no call of [validarUsuario]. *)
Theorem put_desconocido (a : Almacen) (id0 : jsstring) (nom : valor)
    (H : ninguno_con_id a id0) :
  atiende (PUT_usuario id0 nom) a =
  Normal tt {| almacen := a; statusCode := 404;
               enviadas := [ {| codigo := 404;
                                cuerpo := Texto no_encontrado |} ];
               validadas := [] |}.
Proof. apply put_ausente, busca_None, H. Qed.

Lemma put_desconocido_witness :
  ninguno_con_id inicial (js "999") /\
  atiende (PUT_usuario (js "999") (VStr (js "Bo"))) inicial =
  Normal tt {| almacen := inicial; statusCode := 404;
               enviadas := [ {| codigo := 404;
                                cuerpo := Texto no_encontrado |} ];
               validadas := [] |}.
Proof.
  assert (H : ninguno_con_id inicial (js "999"))
    by (apply busca_None; vm_compute; reflexivity).
  split; [exact H|].
  apply (put_desconocido inicial (js "999") (VStr (js "Bo")) H).
Defined.

(** C7. For every id that a record of the store has and every name that the
    validator accepts, the handler of PUT /api/usuarios/:id changes, in the
    first record with that id, the nombre to the new name and nothing else:
    the id of that object, every other object and the array are as before;
    it answers 200 with that same object. *)
Theorem put_actualiza (a : Almacen) (id0 : jsstring) (nom : valor)
    (i : nat) (l : loc) (u : Usuario)
    (Hp : primero_con_id a id0 i l u)
    (Hv : Joi.error (validarUsuario nom) = None) :
  exists a',
    atiende (PUT_usuario id0 nom) a =
    Normal tt
      {| almacen := a'; statusCode := 200;
         enviadas := [ {| codigo := 200;
                          cuerpo := JsonUsuario
                                      {| id := id u; nombre := nom |} |} ];
         validadas := [nom] |} /\
    usuarios a' = usuarios a /\
    length (monton a') = length (monton a) /\
    monton a' !! l = Some {| id := id u; nombre := nom |} /\
    forall l', l' <> l -> monton a' !! l' = monton a !! l'.
Proof.
  pose proof (primero_con_id_busca _ _ _ _ _ Hp) as Hb.
  destruct Hp as ([Hl Hu] & _).
  pose proof (put_valido a id0 nom l u Hb Hu Hv) as E. cbv zeta in E.
  rewrite validarUsuario_value in E. cbn [Joi.o_nombre] in E.
  eexists. split; [exact E|]. cbn [usuarios monton].
  split; [reflexivity|]. split; [apply length_insert|]. split.
  - apply list_lookup_insert_eq. apply lookup_lt_Some in Hu. exact Hu.
  - intros l' Hne. apply list_lookup_insert_ne. congruence.
Qed.

Lemma put_actualiza_witness :
  primero_con_id inicial (js "2") 1 1 {| id := 2; nombre := VStr (js "Ana") |} /\
  Joi.error (validarUsuario Bob) = None /\
  exists a',
    atiende (PUT_usuario (js "2") Bob) inicial =
    Normal tt
      {| almacen := a'; statusCode := 200;
         enviadas := [ {| codigo := 200;
                          cuerpo := JsonUsuario {| id := 2; nombre := Bob |} |} ];
         validadas := [Bob] |} /\
    usuarios a' = usuarios inicial /\
    length (monton a') = length (monton inicial) /\
    monton a' !! 1%nat = Some {| id := 2; nombre := Bob |} /\
    forall l', l' <> 1%nat -> monton a' !! l' = monton inicial !! l'.
Proof.
  assert (Hp : primero_con_id inicial (js "2") 1 1
                 {| id := 2; nombre := VStr (js "Ana") |})
    by (apply primero_por_calculo; vm_compute; reflexivity).
  split; [exact Hp|]. split; [reflexivity|].
  apply (put_actualiza inicial (js "2") Bob 1 1
           {| id := 2; nombre := VStr (js "Ana") |} Hp).
  reflexivity.
Defined.

(** C9. For every request and every store, if the request is answered with
    status 400 or 404 (a POST with an invalid name, a PUT with an unknown id
    or an invalid name, a DELETE or a GET with an unknown id), the store after
    the request is the store before it: the same objects and the same
    array. *)
Theorem rechazo_no_cambia (p : Peticion) (a : Almacen) (r : Respuesta)
    (Hr : r ∈ respuestas p a)
    (Hc : codigo r = 400 \/ codigo r = 404) :
  almacen_tras p a = a.
Proof.
  unfold almacen_tras, respuestas in *.
  destruct p as [| |id0|nom|id0 nom|id0].
  - reflexivity.
  - desarrolla. destruct (mapM _ _); reflexivity.
  - destruct (busca_caso a id0) as [(i & l & u & Hb & ([_ Hu] & _))|[Hb _]].
    + rewrite (get_usuario_encontrado a id0 l u Hb Hu). reflexivity.
    + rewrite (get_usuario_ausente a id0 Hb). reflexivity.
  - destruct (Joi.error (validarUsuario nom)) as [e|] eqn:Ev.
    + destruct (post_invalido a nom e Ev) as (d & _ & _ & E).
      rewrite E. reflexivity.
    + pose proof (post_valido a nom Ev) as E. cbv zeta in E.
      rewrite E in Hr. cbn in Hr.
      apply list_elem_of_singleton in Hr as ->. cbn in Hc.
      destruct Hc; discriminate.
  - destruct (busca_caso a id0) as [(i & l & u & Hb & H)|[Hb H]].
    + destruct H as ([_ Hu] & _).
      destruct (Joi.error (validarUsuario nom)) as [e|] eqn:Ev.
      * destruct (put_invalido a id0 nom l e Hb Ev) as (d & _ & _ & E).
        rewrite E. reflexivity.
      * pose proof (put_valido a id0 nom l u Hb Hu Ev) as E. cbv zeta in E.
        rewrite E in Hr. cbn in Hr.
        apply list_elem_of_singleton in Hr as ->. cbn in Hc.
        destruct Hc; discriminate.
    + rewrite (put_ausente a id0 nom Hb). reflexivity.
  - destruct (busca_caso a id0) as [(i & l & u & Hb & H)|[Hb H]].
    + rewrite (delete_encontrado a id0 i l u H) in Hr. cbn in Hr.
      apply list_elem_of_singleton in Hr as ->. cbn in Hc.
      destruct Hc; discriminate.
    + rewrite (delete_ausente a id0 Hb). reflexivity.
Qed.

Lemma rechazo_no_cambia_witness :
  respuesta_404 ∈ respuestas (DELETE_usuario (js "999")) inicial /\
  (codigo respuesta_404 = 400 \/ codigo respuesta_404 = 404) /\
  almacen_tras (DELETE_usuario (js "999")) inicial = inicial.
Proof.
  assert (Hr : respuesta_404 ∈ respuestas (DELETE_usuario (js "999")) inicial)
    by (vm_compute; apply list_elem_of_here).
  split; [exact Hr|]. split; [right; reflexivity|].
  apply (rechazo_no_cambia (DELETE_usuario (js "999")) inicial respuesta_404 Hr).
  right; reflexivity.
Defined.

(** C10, as amended.  On a POST answered with 200 the stored nombre is the
    value of the request body, and on a PUT answered with 200 it is the
    nombre of the validator's value; the validator converts nothing, so that
    its value holds the name as it came, and for every name that it accepts
    POST and PUT store the same value. *)
Theorem post_put_mismo_nombre (a : Almacen) (id0 : jsstring) (nom : valor)
    (i : nat) (l : loc) (u : Usuario)
    (Hv : Joi.error (validarUsuario nom) = None)
    (Hp : primero_con_id a id0 i l u) :
  nombre_almacenado_post a nom = Some nom /\
  nombre_almacenado_put a id0 nom =
    Some (Joi.o_nombre (Joi.value (validarUsuario nom))) /\
  Joi.o_nombre (Joi.value (validarUsuario nom)) = nom.
Proof.
  pose proof (primero_con_id_busca _ _ _ _ _ Hp) as Hb.
  destruct Hp as ([Hl Hu] & _). split; [|split].
  - unfold nombre_almacenado_post, almacen_tras, respuestas.
    pose proof (post_valido a nom Hv) as E. cbv zeta in E. rewrite E. cbn.
    rewrite last_snoc. cbn. rewrite list_lookup_middle by reflexivity.
    reflexivity.
  - unfold nombre_almacenado_put, almacen_tras, respuestas.
    pose proof (put_valido a id0 nom l u Hb Hu Hv) as E. cbv zeta in E.
    rewrite E. cbn. rewrite Hb. cbn.
    rewrite list_lookup_insert_eq by (apply lookup_lt_Some in Hu; exact Hu).
    reflexivity.
  - rewrite validarUsuario_value. reflexivity.
Qed.

Lemma post_put_mismo_nombre_witness :
  Joi.error (validarUsuario Bob) = None /\
  primero_con_id inicial (js "2") 1 1 {| id := 2; nombre := VStr (js "Ana") |} /\
  nombre_almacenado_post inicial Bob = Some Bob /\
  nombre_almacenado_put inicial (js "2") Bob =
    Some (Joi.o_nombre (Joi.value (validarUsuario Bob))) /\
  Joi.o_nombre (Joi.value (validarUsuario Bob)) = Bob.
Proof.
  assert (Hp : primero_con_id inicial (js "2") 1 1
                 {| id := 2; nombre := VStr (js "Ana") |})
    by (apply primero_por_calculo; vm_compute; reflexivity).
  split; [reflexivity|]. split; [exact Hp|].
  apply (post_put_mismo_nombre inicial (js "2") Bob 1 1
           {| id := 2; nombre := VStr (js "Ana") |}); [reflexivity | exact Hp].
Defined.

(** C10, as stated, at the numeric name 12345: the validator does not
    accept it, with or without conversion; POST and PUT both answer 400 and
    store nothing, so that what they store does not differ. *)
Lemma numero_no_se_almacena :
  Joi.error (validarUsuario (VNum 12345)) <> None /\
  map codigo (respuestas (POST_usuarios (VNum 12345)) inicial) = [400] /\
  map codigo (respuestas (PUT_usuario (js "1") (VNum 12345)) inicial) = [400] /\
  nombre_almacenado_post inicial (VNum 12345) = None /\
  nombre_almacenado_put inicial (js "1") (VNum 12345) = None /\
  ~ (nombre_almacenado_post inicial (VNum 12345) <>
     nombre_almacenado_put inicial (js "1") (VNum 12345)).
Proof.
  split; [discriminate|]. repeat (split; [reflexivity|]).
  intros H. apply H. reflexivity.
Qed.

(** *** A collision of ids *)

(** C1, on the code.  From the initial store, DELETE /api/usuarios/1
    followed by a valid POST leaves two records with id 4: the array has
    three entries when the POST reads its length.  And DELETE /api/usuarios/4
    followed by a valid POST gives the removed id 4 to the new record, which
    is another object. *)
Theorem ids_repetidos_tras_delete :
  let a1 := atiende_todas [DELETE_usuario (js "1"); POST_usuarios Bob] inicial in
  let a2 := atiende_todas [DELETE_usuario (js "4"); POST_usuarios Bob] inicial in
  ids a1 = [Some 2; Some 3; Some 4; Some 4] /\
  ~ NoDup (ids a1) /\
  ids (atiende_todas [DELETE_usuario (js "4")] inicial)
    = [Some 1; Some 2; Some 3] /\
  registros a2 !! 3%nat = Some (Some {| id := 4; nombre := Bob |}) /\
  usuarios inicial !! 3%nat = Some 3%nat /\
  usuarios a2 !! 3%nat = Some 4%nat.
Proof.
  cbv zeta. split; [reflexivity|]. split.
  - change (ids (atiende_todas [DELETE_usuario (js "1"); POST_usuarios Bob]
                   inicial))
      with [Some 2; Some 3; Some 4; Some 4].
    intros H. apply NoDup_cons in H as [_ H]. apply NoDup_cons in H as [_ H].
    apply NoDup_cons in H as [H _]. apply H. apply list_elem_of_here.
  - repeat split; reflexivity.
Qed.

(** C6, on the code.  In the store reached from the initial one by DELETE
    /api/usuarios/1 and a valid POST, DELETE /api/usuarios/4 removes the
    first record with id 4 and answers with it, and the GET /api/usuarios/4
    that follows is answered with status 200 and the other record with id 4,
    not with 404. *)
Theorem get_tras_delete_responde_200 :
  let a := atiende_todas [DELETE_usuario (js "1"); POST_usuarios Bob] inicial in
  let a' := almacen_tras (DELETE_usuario (js "4")) a in
  respuestas (DELETE_usuario (js "4")) a =
    [ {| codigo := 200;
         cuerpo := JsonUsuario {| id := 4; nombre := VStr (js "Luis") |} |} ] /\
  usuarios a = [1; 2; 3; 4]%nat /\
  usuarios a' = [1; 2; 4]%nat /\
  respuestas (GET_usuario (js "4")) a' =
    [ {| codigo := 200;
         cuerpo := JsonUsuario {| id := 4; nombre := Bob |} |} ].
Proof. cbv zeta. repeat split; reflexivity. Qed.

(** ** The handlers, case by case *)

Lemma no_valido_rechaza nom :
  ~ nombre_valido nom ->
  exists e, Joi.error (validarUsuario nom) = Some e.
Proof.
  intros Hno. destruct (Joi.error (validarUsuario nom)) as [e|] eqn:E; [eauto|].
  destruct Hno. apply validarUsuario_acepta, E.
Qed.

Lemma rechaza_no_valido nom e :
  Joi.error (validarUsuario nom) = Some e -> ~ nombre_valido nom.
Proof.
  intros E Hv. apply validarUsuario_acepta in Hv. congruence.
Qed.

Lemma refs_validas_lista a :
  refs_validas a ->
  exists us, mapM (fun l => monton a !! l) (usuarios a) = Some us.
Proof.
  intros Hr. apply mapM_is_Some, Forall_forall. intros l Hl.
  unfold refs_validas in Hr. rewrite Forall_forall in Hr.
  apply lookup_lt_is_Some, Hr, Hl.
Qed.

(** Every request ends without an exception, with one response, in one of
    the cases of [efecto]; the list of all users needs the references of the
    array to be valid. *)
Lemma atiende_efecto p a :
  (p = GET_usuarios -> refs_validas a) ->
  exists a' r vs,
    atiende p a =
    Normal tt {| almacen := a'; statusCode := codigo r;
                 enviadas := [r]; validadas := vs |} /\
    efecto a p a' r vs.
Proof.
  intros Hr. destruct p as [| |id0|nom|id0 nom|id0].
  - exists a, {| codigo := 200; cuerpo := Texto saludo |}, [].
    split; [reflexivity | constructor].
  - destruct (refs_validas_lista a (Hr eq_refl)) as [us Hus].
    exists a, {| codigo := 200; cuerpo := JsonLista us |}, []. split.
    + desarrolla. rewrite Hus. reflexivity.
    + constructor. apply mapM_Some, Hus.
  - destruct (busca_caso a id0) as [(i & l & u & Hb & H)|[Hb H]].
    + exists a, {| codigo := 200; cuerpo := JsonUsuario u |}, []. split.
      * destruct H as ([_ Hu] & _). exact (get_usuario_encontrado a id0 l u Hb Hu).
      * econstructor; exact H.
    + exists a, respuesta_404, []. split.
      * exact (get_usuario_ausente a id0 Hb).
      * constructor; exact H.
  - destruct (Joi.error (validarUsuario nom)) as [e|] eqn:Ev.
    + destruct (post_invalido a nom e Ev) as (d & Hd & Hm & E).
      exists a, {| codigo := 400; cuerpo := Texto (Joi.message d) |}, [nom].
      split; [exact E|]. econstructor; eauto using rechaza_no_valido.
    + exists {| monton := monton a ++
                  [ {| id := Z.of_nat (length (usuarios a)) + 1;
                       nombre := nom |} ];
                usuarios := usuarios a ++ [length (monton a)] |},
        {| codigo := 200;
           cuerpo := JsonUsuario {| id := Z.of_nat (length (usuarios a)) + 1;
                                    nombre := nom |} |}, [nom].
      split; [exact (post_valido a nom Ev)|].
      apply ef_post, validarUsuario_acepta, Ev.
  - destruct (busca_caso a id0) as [(i & l & u & Hb & H)|[Hb H]].
    + destruct (Joi.error (validarUsuario nom)) as [e|] eqn:Ev.
      * destruct (put_invalido a id0 nom l e Hb Ev) as (d & Hd & Hm & E).
        exists a, {| codigo := 400; cuerpo := Texto (Joi.message d) |}, [nom].
        split; [exact E|]. econstructor; eauto using rechaza_no_valido.
      * pose proof H as ([_ Hu] & _).
        pose proof (put_valido a id0 nom l u Hb Hu Ev) as E. cbv zeta in E.
        rewrite validarUsuario_value in E. cbn [Joi.o_nombre] in E.
        exists {| monton := <[l := {| id := id u; nombre := nom |}]> (monton a);
                  usuarios := usuarios a |},
          {| codigo := 200;
             cuerpo := JsonUsuario {| id := id u; nombre := nom |} |}, [nom].
        split; [exact E|].
        eapply ef_put; [exact H|]. apply validarUsuario_acepta, Ev.
    + exists a, respuesta_404, []. split.
      * exact (put_ausente a id0 nom Hb).
      * constructor; exact H.
  - destruct (busca_caso a id0) as [(i & l & u & Hb & H)|[Hb H]].
    + exists {| monton := monton a; usuarios := delete i (usuarios a) |},
        {| codigo := 200; cuerpo := JsonUsuario u |}, [].
      split; [exact (delete_encontrado a id0 i l u H)|].
      econstructor; exact H.
    + exists a, respuesta_404, []. split.
      * exact (delete_ausente a id0 Hb).
      * constructor; exact H.
Qed.

Lemma efecto_tras p a :
  (p = GET_usuarios -> refs_validas a) ->
  exists r vs, efecto a p (almacen_tras p a) r vs /\ respuestas p a = [r].
Proof.
  intros Hr. destruct (atiende_efecto p a Hr) as (a' & r & vs & E & H).
  exists r, vs. unfold almacen_tras, respuestas. rewrite E. cbn. auto.
Qed.

Lemma get_usuarios_no_cambia a : almacen_tras GET_usuarios a = a.
Proof. unfold almacen_tras. desarrolla. destruct (mapM _ _); reflexivity. Qed.

(** The ids that the array shows, after each kind of change. *)
Lemma ids_delete a i :
  ids {| monton := monton a; usuarios := delete i (usuarios a) |}
  = delete i (ids a).
Proof.
  unfold ids. cbn [monton usuarios]. generalize (usuarios a). intros us.
  revert i. induction us as [|l us IH]; intros [|i]; cbn; try reflexivity.
  f_equal. apply IH.
Qed.

Lemma es_registro_ids a i l u :
  es_registro a i l u -> ids a !! i = Some (Some (id u)).
Proof.
  intros [Hl Hu]. unfold ids.
  change (map ?f ?x) with (f <$> x). rewrite list_lookup_fmap, Hl. cbn.
  rewrite Hu. reflexivity.
Qed.

Lemma NoDup_ids_distintos a : NoDup (ids a) -> ids_distintos a.
Proof.
  intros Hnd i j li lj ui uj Hi Hj Hid.
  apply es_registro_ids in Hi, Hj. rewrite <- Hid in Hj.
  exact (NoDup_lookup _ _ _ _ Hnd Hi Hj).
Qed.

(** *** The invariant of the store *)

Lemma inicial_bien_formado : bien_formado inicial.
Proof.
  split; [apply inicial_denso|]. split.
  - exact (NoDup_seq 0 4).
  - intros i l u [Hl Hu]. cbn in Hl.
    destruct i as [|[|[|[|i]]]]; cbn in Hl; try discriminate;
      injection Hl as <-; cbn in Hu; injection Hu as <-; cbn;
      (split; [eexists; split; [reflexivity | cbn; lia] | lia]).
Qed.

Lemma registro_delete a i j l u :
  es_registro {| monton := monton a; usuarios := delete i (usuarios a) |} j l u ->
  exists k, es_registro a k l u /\ k <> i /\
            (k = j /\ (j < i)%nat \/ k = S j /\ (i <= j)%nat).
Proof.
  intros [Hl Hu]. cbn [monton usuarios] in Hl, Hu.
  destruct (decide (j < i)%nat) as [Hlt|Hge].
  - rewrite list_lookup_delete_lt in Hl by exact Hlt.
    exists j. repeat split; [assumption.. | lia | auto].
  - rewrite list_lookup_delete_ge in Hl by lia.
    exists (S j). repeat split; [assumption.. | lia | right; lia].
Qed.

Lemma paso_bien_formado p a :
  bien_formado a -> bien_formado (almacen_tras p a).
Proof.
  intros (Hr & Hnd & Hrec).
  destruct (efecto_tras p a (fun _ => Hr)) as (r & vs & H & _).
  remember (almacen_tras p a) as a' eqn:Ea. clear Ea.
  destruct H as [ | | | |nom Hv| | id0 nom i l u Hp Hv| | |id0 i l u Hp| ];
    try exact (conj Hr (conj Hnd Hrec));
    unfold bien_formado, refs_validas in *; cbn [monton usuarios];
    (split; [|split; [|intros j l' u0 [Hl' Hu']; cbn [monton usuarios] in Hl', Hu']]).
  - (* POST *)
    rewrite length_app. cbn [length]. apply Forall_app. split.
    + eapply Forall_impl; [exact Hr|]. cbn. intros; lia.
    + repeat constructor. lia.
  - apply NoDup_app. repeat split; [exact Hnd| |apply NoDup_singleton].
    intros x Hx ->%list_elem_of_singleton.
    rewrite Forall_forall in Hr. specialize (Hr _ Hx). lia.
  - apply lookup_snoc_Some in Hl' as [[Hi Hl']|[-> <-]].
    + rewrite Forall_lookup in Hr. pose proof (Hr _ _ Hl') as Hlt.
      rewrite lookup_app_l in Hu' by exact Hlt.
      exact (Hrec _ _ _ (conj Hl' Hu')).
    + rewrite list_lookup_middle in Hu' by reflexivity.
      injection Hu' as <-. split; [exact Hv | cbn; lia].
  - (* PUT *)
    rewrite length_insert. exact Hr.
  - exact Hnd.
  - destruct Hp as ([Hl Hu] & _).
    destruct (decide (l = l')) as [<-|Hne].
    + rewrite list_lookup_insert_eq in Hu'
        by (apply lookup_lt_Some in Hu; exact Hu).
      injection Hu' as <-. split; [exact Hv|].
      exact (proj2 (Hrec _ _ _ (conj Hl Hu))).
    + rewrite list_lookup_insert_ne in Hu' by exact Hne.
      exact (Hrec _ _ _ (conj Hl' Hu')).
  - (* DELETE *)
    apply Forall_delete, Hr.
  - eapply sublist_NoDup; [exact Hnd | apply sublist_delete].
  - destruct (registro_delete a i j l' u0 (conj Hl' Hu')) as (k & Hk & _).
    exact (Hrec _ _ _ Hk).
Qed.

Lemma almacen_casos p a :
  almacen_tras p a = a \/ exists r vs, efecto a p (almacen_tras p a) r vs.
Proof.
  destruct p; [right|left|right..]; try apply get_usuarios_no_cambia;
    match goal with
    | |- exists r vs, efecto _ ?q _ r vs =>
        destruct (efecto_tras q a) as (r & vs & H & _); [discriminate | eauto]
    end.
Qed.

Lemma paso_id_objeto p a l u :
  monton a !! l = Some u ->
  exists u', monton (almacen_tras p a) !! l = Some u' /\ id u' = id u.
Proof.
  intros Hu. destruct (almacen_casos p a) as [->|(r & vs & H)]; [eauto|].
  remember (almacen_tras p a) as a' eqn:Ea. clear Ea.
  destruct H as [ | | | |nom Hv| | id0 nom i l0 u0 Hp Hv| | |id0 i l0 u0 Hp| ];
    eauto; cbn [monton].
  - exists u. split; [|reflexivity].
    rewrite lookup_app_l by (apply lookup_lt_Some in Hu; exact Hu). exact Hu.
  - destruct Hp as ([_ Hu0] & _). destruct (decide (l0 = l)) as [->|Hne].
    + rewrite list_lookup_insert_eq by (apply lookup_lt_Some in Hu; exact Hu).
      eexists. split; [reflexivity|]. cbn. congruence.
    + rewrite list_lookup_insert_ne by exact Hne. eauto.
Qed.

(** ** Further properties of the handlers *)

(** X1. On a store whose array holds valid references, every request ends
    without an exception and has written exactly one response, whose status
    is the one set on [res] and is 200, 400 or 404. *)
Theorem toda_peticion_responde (p : Peticion) (a : Almacen)
    (Hr : refs_validas a) :
  exists w r,
    atiende p a = Normal tt w /\
    enviadas w = [r] /\
    statusCode w = codigo r /\
    (codigo r = 200 \/ codigo r = 400 \/ codigo r = 404).
Proof.
  destruct (atiende_efecto p a (fun _ => Hr)) as (a' & r & vs & E & H).
  eexists _, r. split; [exact E|]. cbn. repeat split.
  destruct H; cbn; auto.
Qed.

Lemma toda_peticion_responde_witness :
  refs_validas inicial /\
  exists w r,
    atiende (POST_usuarios (VNum 7)) inicial = Normal tt w /\
    enviadas w = [r] /\
    statusCode w = codigo r /\
    (codigo r = 200 \/ codigo r = 400 \/ codigo r = 404).
Proof.
  assert (Hr : refs_validas inicial) by (vm_compute; repeat constructor).
  split; [exact Hr|].
  apply (toda_peticion_responde (POST_usuarios (VNum 7)) inicial Hr).
Defined.

(** X2. On a store whose array holds valid references, GET /api/usuarios
    answers 200 with the JSON of all the records, in the order of the
    array, and leaves the store as it is. *)
Theorem get_usuarios_lista (a : Almacen) (Hr : refs_validas a) :
  exists us,
    atiende GET_usuarios a =
    Normal tt {| almacen := a; statusCode := 200;
                 enviadas := [ {| codigo := 200; cuerpo := JsonLista us |} ];
                 validadas := [] |} /\
    registros a = map Some us.
Proof.
  destruct (refs_validas_lista a Hr) as [us Hus]. exists us. split.
  - desarrolla. rewrite Hus. reflexivity.
  - apply mapM_Some in Hus. unfold registros.
    induction Hus as [|l u ls us Hl _ IH]; [reflexivity|].
    cbn [map]. rewrite Hl, IH. reflexivity.
Qed.

Lemma get_usuarios_lista_witness :
  refs_validas inicial /\
  exists us,
    atiende GET_usuarios inicial =
    Normal tt {| almacen := inicial; statusCode := 200;
                 enviadas := [ {| codigo := 200; cuerpo := JsonLista us |} ];
                 validadas := [] |} /\
    registros inicial = map Some us.
Proof.
  assert (Hr : refs_validas inicial) by (vm_compute; repeat constructor).
  split; [exact Hr|]. apply (get_usuarios_lista inicial Hr).
Defined.

(** X3. The three GET routes never change the store, whatever the store
    and the id. *)
Theorem get_no_modifica (a : Almacen) :
  almacen_tras GET_raiz a = a /\
  almacen_tras GET_usuarios a = a /\
  forall id0, almacen_tras (GET_usuario id0) a = a.
Proof.
  split; [reflexivity|]. split; [apply get_usuarios_no_cambia|].
  intros id0. unfold almacen_tras.
  destruct (busca_caso a id0) as [(i & l & u & Hb & ([_ Hu] & _))|[Hb _]].
  - rewrite (get_usuario_encontrado a id0 l u Hb Hu). reflexivity.
  - rewrite (get_usuario_ausente a id0 Hb). reflexivity.
Qed.

(** X4. Every sequence of requests keeps the store well formed: the
    references of the array stay valid and pairwise distinct, every nombre
    in the array is a string of at least three code units, and every id is
    at least 1. *)
Theorem almacen_siempre_bien_formado (ps : list Peticion) (a : Almacen)
    (H : bien_formado a) :
  bien_formado (atiende_todas ps a).
Proof.
  revert a H. induction ps as [|p ps IH]; intros a H; [exact H|].
  cbn. apply IH, paso_bien_formado, H.
Qed.

Lemma almacen_siempre_bien_formado_witness :
  bien_formado inicial /\
  bien_formado
    (atiende_todas [DELETE_usuario (js "1"); POST_usuarios Bob;
                    PUT_usuario (js "4") Bob] inicial).
Proof.
  split; [exact inicial_bien_formado|].
  apply (almacen_siempre_bien_formado
           [DELETE_usuario (js "1"); POST_usuarios Bob;
            PUT_usuario (js "4") Bob] inicial).
  exact inicial_bien_formado.
Defined.

(** X5. No request changes the id of an object or removes an object from
    the heap: an object that exists before a request exists after it, under
    the same reference and with the same id. *)
Theorem id_no_cambia (p : Peticion) (a : Almacen) (l : loc) (u : Usuario)
    (Hu : monton a !! l = Some u) :
  exists u', monton (almacen_tras p a) !! l = Some u' /\ id u' = id u.
Proof. exact (paso_id_objeto p a l u Hu). Qed.

Lemma id_no_cambia_witness :
  monton inicial !! 1%nat = Some {| id := 2; nombre := VStr (js "Ana") |} /\
  exists u', monton (almacen_tras (PUT_usuario (js "2") Bob) inicial) !! 1%nat
             = Some u' /\
             id u' = id {| id := 2; nombre := VStr (js "Ana") |}.
Proof.
  split; [reflexivity|].
  apply (id_no_cambia (PUT_usuario (js "2") Bob) inicial 1
           {| id := 2; nombre := VStr (js "Ana") |}).
  reflexivity.
Defined.

(** *** Lookups after a change of the store *)

Lemma respuestas_get_primero a id0 i l u :
  primero_con_id a id0 i l u ->
  atiende (GET_usuario id0) a =
  Normal tt {| almacen := a; statusCode := 200;
               enviadas := [ {| codigo := 200; cuerpo := JsonUsuario u |} ];
               validadas := [] |}.
Proof.
  intros H. pose proof (primero_con_id_busca _ _ _ _ _ H) as Hb.
  destruct H as ([_ Hu] & _). exact (get_usuario_encontrado a id0 l u Hb Hu).
Qed.

Lemma respuestas_get_ninguno a id0 :
  ninguno_con_id a id0 ->
  atiende (GET_usuario id0) a =
  Normal tt {| almacen := a; statusCode := 404;
               enviadas := [respuesta_404]; validadas := [] |}.
Proof. intros H. apply get_usuario_ausente, busca_None, H. Qed.

Lemma put_valido_primero a id0 nom i l u :
  primero_con_id a id0 i l u -> nombre_valido nom ->
  atiende (PUT_usuario id0 nom) a =
  Normal tt
    {| almacen := {| monton := <[l := {| id := id u; nombre := nom |}]> (monton a);
                     usuarios := usuarios a |};
       statusCode := 200;
       enviadas := [ {| codigo := 200;
                        cuerpo := JsonUsuario {| id := id u; nombre := nom |} |} ];
       validadas := [nom] |}.
Proof.
  intros H Hv. pose proof (primero_con_id_busca _ _ _ _ _ H) as Hb.
  destruct H as ([_ Hu] & _). apply validarUsuario_acepta in Hv.
  pose proof (put_valido a id0 nom l u Hb Hu Hv) as E. cbv zeta in E.
  rewrite validarUsuario_value in E. exact E.
Qed.

(** After [usuario.nombre = ...] on the object [l], the records are the
    same up to the nombre of [l]. *)
Lemma registro_insert a l u v j l' u' :
  monton a !! l = Some u ->
  es_registro {| monton := <[l := {| id := id u; nombre := v |}]> (monton a);
                 usuarios := usuarios a |} j l' u' <->
  exists w, es_registro a j l' w /\
            u' = (if decide (l = l') then {| id := id u; nombre := v |} else w).
Proof.
  intros Hu. unfold es_registro. cbn [monton usuarios].
  destruct (decide (l = l')) as [<-|Hne].
  - rewrite list_lookup_insert_eq by (apply lookup_lt_Some in Hu; exact Hu).
    split.
    + intros [Hl [= <-]]. exists u. auto.
    + intros (w & [Hl _] & ->). auto.
  - rewrite list_lookup_insert_ne by exact Hne. split.
    + intros [Hl Hu']. exists u'. auto.
    + intros (w & [Hl Hw] & ->). auto.
Qed.

Lemma primero_insert a l u v id1 j l1 u1 :
  monton a !! l = Some u ->
  primero_con_id a id1 j l1 u1 ->
  primero_con_id {| monton := <[l := {| id := id u; nombre := v |}]> (monton a);
                    usuarios := usuarios a |} id1 j l1
    (if decide (l = l1) then {| id := id u; nombre := v |} else u1).
Proof.
  intros Hu (Hreg & Hp & Hmin). split; [|split].
  - apply registro_insert; [exact Hu|]. exists u1. auto.
  - destruct (decide (l = l1)) as [<-|Hne]; [|exact Hp].
    destruct Hreg as [_ Hu1]. cbn. congruence.
  - intros k l' u' Hk (w & Hw & ->)%registro_insert Hp'; [|exact Hu].
    apply (Hmin k l' w Hk Hw).
    destruct (decide (l = l')) as [<-|Hne]; [|exact Hp'].
    destruct Hw as [_ Hw]. cbn in Hp'. congruence.
Qed.

Lemma ninguno_insert a l u v id1 :
  monton a !! l = Some u ->
  ninguno_con_id a id1 ->
  ninguno_con_id {| monton := <[l := {| id := id u; nombre := v |}]> (monton a);
                    usuarios := usuarios a |} id1.
Proof.
  intros Hu Hn k l' u' (w & Hw & ->)%registro_insert Hp'; [|exact Hu].
  apply (Hn k l' w Hw).
  destruct (decide (l = l')) as [<-|Hne]; [|exact Hp'].
  destruct Hw as [_ Hw]. cbn in Hp'. congruence.
Qed.

(** After a POST that stored a record, the old records are where they
    were. *)
Lemma registro_post a u j l' u' :
  refs_validas a -> (j < length (usuarios a))%nat ->
  es_registro {| monton := monton a ++ [u];
                 usuarios := usuarios a ++ [length (monton a)] |} j l' u' ->
  es_registro a j l' u'.
Proof.
  intros Hr Hj [Hl Hu']. cbn [monton usuarios] in Hl, Hu'.
  rewrite lookup_app_l in Hl by exact Hj.
  unfold refs_validas in Hr. rewrite Forall_lookup in Hr.
  rewrite lookup_app_l in Hu' by exact (Hr _ _ Hl). split; assumption.
Qed.

Lemma primero_post a u id1 j l1 u1 :
  refs_validas a ->
  primero_con_id a id1 j l1 u1 ->
  primero_con_id {| monton := monton a ++ [u];
                    usuarios := usuarios a ++ [length (monton a)] |} id1 j l1 u1.
Proof.
  intros Hr ([Hl Hu1] & Hp & Hmin). split; [|split; [exact Hp|]].
  - split; cbn [monton usuarios].
    + apply lookup_app_l_Some, Hl.
    + apply lookup_app_l_Some, Hu1.
  - intros k l' u' Hk Hreg. apply (Hmin k l' u' Hk).
    apply (registro_post a u); [exact Hr | | exact Hreg].
    apply lookup_lt_Some in Hl. lia.
Qed.

Lemma primero_delete a i id1 j l1 u1 :
  primero_con_id a id1 j l1 u1 -> i <> j ->
  primero_con_id {| monton := monton a; usuarios := delete i (usuarios a) |}
    id1 (if decide (j < i)%nat then j else pred j) l1 u1.
Proof.
  intros ([Hl Hu1] & Hp & Hmin) Hij. split; [|split; [exact Hp|]].
  - split; [|exact Hu1]. cbn [monton usuarios].
    destruct (decide (j < i)%nat) as [Hlt|Hge].
    + rewrite list_lookup_delete_lt by exact Hlt. exact Hl.
    + rewrite list_lookup_delete_ge by lia.
      replace (S (pred j)) with j by lia. exact Hl.
  - intros k l' u' Hk Hreg.
    apply registro_delete in Hreg as (k' & Hreg & _ & Hk').
    apply (Hmin k' l' u'); [|exact Hreg].
    destruct (decide (j < i)%nat); lia.
Qed.

Lemma ninguno_delete a i id1 :
  ninguno_con_id a id1 ->
  ninguno_con_id {| monton := monton a; usuarios := delete i (usuarios a) |} id1.
Proof.
  intros Hn k l' u' Hreg.
  apply registro_delete in Hreg as (k' & Hreg & _). exact (Hn k' l' u' Hreg).
Qed.

(** X6. After a PUT that is answered with 200, a GET of the same id is
    answered with 200 and the record with its new nombre. *)
Theorem put_luego_get (a : Almacen) (id0 : jsstring) (nom : valor)
    (i : nat) (l : loc) (u : Usuario)
    (Hp : primero_con_id a id0 i l u) (Hv : nombre_valido nom) :
  respuestas (PUT_usuario id0 nom) a =
    [ {| codigo := 200;
         cuerpo := JsonUsuario {| id := id u; nombre := nom |} |} ] /\
  respuestas (GET_usuario id0) (almacen_tras (PUT_usuario id0 nom) a) =
    [ {| codigo := 200;
         cuerpo := JsonUsuario {| id := id u; nombre := nom |} |} ].
Proof.
  unfold respuestas, almacen_tras.
  rewrite (put_valido_primero a id0 nom i l u Hp Hv). cbn [mundo_de almacen enviadas].
  split; [reflexivity|].
  pose proof Hp as ([_ Hu] & _).
  pose proof (primero_insert a l u nom id0 i l u Hu Hp) as Hp'.
  rewrite decide_True in Hp' by reflexivity.
  rewrite (respuestas_get_primero _ _ _ _ _ Hp'). reflexivity.
Qed.

Lemma put_luego_get_witness :
  primero_con_id inicial (js "2") 1 1 {| id := 2; nombre := VStr (js "Ana") |} /\
  nombre_valido Bob /\
  respuestas (PUT_usuario (js "2") Bob) inicial =
    [ {| codigo := 200; cuerpo := JsonUsuario {| id := 2; nombre := Bob |} |} ] /\
  respuestas (GET_usuario (js "2"))
    (almacen_tras (PUT_usuario (js "2") Bob) inicial) =
    [ {| codigo := 200; cuerpo := JsonUsuario {| id := 2; nombre := Bob |} |} ].
Proof.
  assert (Hp : primero_con_id inicial (js "2") 1 1
                 {| id := 2; nombre := VStr (js "Ana") |})
    by (apply primero_por_calculo; vm_compute; reflexivity).
  assert (Hv : nombre_valido Bob)
    by (exists (js "Bob"); split; [reflexivity | vm_compute; lia]).
  split; [exact Hp|]. split; [exact Hv|].
  apply (put_luego_get inicial (js "2") Bob 1 1
           {| id := 2; nombre := VStr (js "Ana") |} Hp Hv).
Defined.

(** X7. PUT is idempotent: for every store, id and body, the same PUT a
    second time leaves the store of the first and writes the same
    response. *)
Theorem put_idempotente (a : Almacen) (id0 : jsstring) (nom : valor) :
  let p := PUT_usuario id0 nom in
  almacen_tras p (almacen_tras p a) = almacen_tras p a /\
  respuestas p (almacen_tras p a) = respuestas p a.
Proof.
  cbv zeta.
  destruct (atiende_efecto (PUT_usuario id0 nom) a) as (a' & r & vs & E & H);
    [discriminate|].
  unfold almacen_tras, respuestas. rewrite E. cbn [mundo_de almacen enviadas].
  inversion H as [ | | | | | | id1 nom1 i l u Hp Hv| | | | ]; subst;
    try (rewrite E; cbn; auto).
  clear E. subst u'.
  pose proof Hp as ([_ Hu] & _).
  pose proof (primero_insert a l u nom id0 i l u Hu Hp) as Hp'.
  rewrite decide_True in Hp' by reflexivity.
  rewrite (put_valido_primero _ id0 nom i l _ Hp' Hv).
  cbn [mundo_de almacen enviadas monton usuarios id].
  rewrite list_insert_insert_eq. auto.
Qed.

(** X8. After a POST that is answered with 200, a GET of the new id is
    answered with 200 and the new record, provided that the array holds
    valid references and no record had that id before. *)
Theorem post_luego_get (a : Almacen) (id0 : jsstring) (nom : valor)
    (Hr : refs_validas a) (Hv : nombre_valido nom)
    (Hid : parseInt id0 = Some (Z.of_nat (length (usuarios a)) + 1))
    (Hn : ninguno_con_id a id0) :
  respuestas (GET_usuario id0) (almacen_tras (POST_usuarios nom) a) =
    [ {| codigo := 200;
         cuerpo := JsonUsuario {| id := Z.of_nat (length (usuarios a)) + 1;
                                  nombre := nom |} |} ].
Proof.
  unfold respuestas, almacen_tras.
  pose proof (post_valido a nom (proj2 (validarUsuario_acepta nom) Hv)) as E.
  cbv zeta in E. rewrite E. cbn [mundo_de almacen].
  erewrite respuestas_get_primero; [reflexivity|].
  split; [|split].
  - split; cbn [monton usuarios]; apply list_lookup_middle; reflexivity.
  - exact Hid.
  - intros j l' u' Hj Hreg. apply (Hn j l' u').
    exact (registro_post a _ j l' u' Hr Hj Hreg).
Qed.

Lemma post_luego_get_witness :
  refs_validas inicial /\ nombre_valido Bob /\
  parseInt (js "5") = Some (Z.of_nat (length (usuarios inicial)) + 1) /\
  ninguno_con_id inicial (js "5") /\
  respuestas (GET_usuario (js "5")) (almacen_tras (POST_usuarios Bob) inicial) =
    [ {| codigo := 200;
         cuerpo := JsonUsuario {| id := Z.of_nat (length (usuarios inicial)) + 1;
                                  nombre := Bob |} |} ].
Proof.
  assert (Hr : refs_validas inicial) by (vm_compute; repeat constructor).
  assert (Hv : nombre_valido Bob)
    by (exists (js "Bob"); split; [reflexivity | vm_compute; lia]).
  assert (Hn : ninguno_con_id inicial (js "5"))
    by (apply busca_None; vm_compute; reflexivity).
  split; [exact Hr|]. split; [exact Hv|]. split; [reflexivity|].
  split; [exact Hn|].
  apply (post_luego_get inicial (js "5") Bob Hr Hv); [reflexivity | exact Hn].
Defined.

(** X9. A POST never changes the answer to the GET of an id that a record
    already has, whatever the body: a new record with the same id stays
    behind the old one. *)
Theorem post_conserva_get (a : Almacen) (id0 : jsstring) (nom : valor)
    (i : nat) (l : loc) (u : Usuario)
    (Hr : refs_validas a) (Hp : primero_con_id a id0 i l u) :
  respuestas (GET_usuario id0) (almacen_tras (POST_usuarios nom) a) =
    [ {| codigo := 200; cuerpo := JsonUsuario u |} ].
Proof.
  unfold respuestas, almacen_tras.
  destruct (Joi.error (validarUsuario nom)) as [e|] eqn:Ev.
  - destruct (post_invalido a nom e Ev) as (d & _ & _ & E). rewrite E.
    cbn [mundo_de almacen].
    rewrite (respuestas_get_primero _ _ _ _ _ Hp). reflexivity.
  - pose proof (post_valido a nom Ev) as E. cbv zeta in E. rewrite E.
    cbn [mundo_de almacen].
    rewrite (respuestas_get_primero _ _ _ _ _ (primero_post a _ id0 i l u Hr Hp)).
    reflexivity.
Qed.

Lemma post_conserva_get_witness :
  refs_validas inicial /\
  primero_con_id inicial (js "2") 1 1 {| id := 2; nombre := VStr (js "Ana") |} /\
  respuestas (GET_usuario (js "2")) (almacen_tras (POST_usuarios Bob) inicial) =
    [ {| codigo := 200;
         cuerpo := JsonUsuario {| id := 2; nombre := VStr (js "Ana") |} |} ].
Proof.
  assert (Hr : refs_validas inicial) by (vm_compute; repeat constructor).
  assert (Hp : primero_con_id inicial (js "2") 1 1
                 {| id := 2; nombre := VStr (js "Ana") |})
    by (apply primero_por_calculo; vm_compute; reflexivity).
  split; [exact Hr|]. split; [exact Hp|].
  apply (post_conserva_get inicial (js "2") Bob 1 1
           {| id := 2; nombre := VStr (js "Ana") |} Hr Hp).
Defined.

Lemma almacen_delete_casos a id0 :
  almacen_tras (DELETE_usuario id0) a = a \/
  exists i l u, primero_con_id a id0 i l u /\
    almacen_tras (DELETE_usuario id0) a =
    {| monton := monton a; usuarios := delete i (usuarios a) |}.
Proof.
  unfold almacen_tras.
  destruct (busca_caso a id0) as [(i & l & u & _ & H)|[Hb _]].
  - right. exists i, l, u. split; [exact H|].
    rewrite (delete_encontrado a id0 i l u H). reflexivity.
  - left. rewrite (delete_ausente a id0 Hb). reflexivity.
Qed.

Lemma almacen_put_casos a id0 nom :
  almacen_tras (PUT_usuario id0 nom) a = a \/
  exists i l u, primero_con_id a id0 i l u /\ nombre_valido nom /\
    almacen_tras (PUT_usuario id0 nom) a =
    {| monton := <[l := {| id := id u; nombre := nom |}]> (monton a);
       usuarios := usuarios a |}.
Proof.
  unfold almacen_tras.
  destruct (busca_caso a id0) as [(i & l & u & Hb & H)|[Hb _]].
  - destruct (Joi.error (validarUsuario nom)) as [e|] eqn:Ev.
    + left. destruct (put_invalido a id0 nom l e Hb Ev) as (d & _ & _ & E).
      rewrite E. reflexivity.
    + right. apply validarUsuario_acepta in Ev. exists i, l, u.
      split; [exact H|]. split; [exact Ev|].
      rewrite (put_valido_primero a id0 nom i l u H Ev). reflexivity.
  - left. rewrite (put_ausente a id0 nom Hb). reflexivity.
Qed.

(** X10. A DELETE or a PUT on one id does not change the answer to the GET
    of an id that parses to another integer, whatever the store and the
    body. *)
Theorem otro_id_no_afecta (a : Almacen) (id0 id1 : jsstring) (nom : valor)
    (Hne : parseInt id0 <> parseInt id1) :
  respuestas (GET_usuario id1) (almacen_tras (DELETE_usuario id0) a) =
    respuestas (GET_usuario id1) a /\
  respuestas (GET_usuario id1) (almacen_tras (PUT_usuario id0 nom) a) =
    respuestas (GET_usuario id1) a.
Proof.
  split.
  - destruct (almacen_delete_casos a id0) as [->|(i & l & u & Hp & ->)];
      [reflexivity|].
    unfold respuestas.
    destruct (busca_caso a id1) as [(j & l1 & u1 & _ & Hp1)|[_ Hn1]].
    + assert (Hij : i <> j).
      { intros ->. destruct Hp as ([Hl Hu] & Hpi & _).
        destruct Hp1 as ([Hl1 Hu1] & Hpj & _). apply Hne. congruence. }
      rewrite (respuestas_get_primero _ _ _ _ _ (primero_delete a i id1 j l1 u1 Hp1 Hij)).
      rewrite (respuestas_get_primero _ _ _ _ _ Hp1). reflexivity.
    + rewrite (respuestas_get_ninguno _ _ (ninguno_delete a i id1 Hn1)).
      rewrite (respuestas_get_ninguno _ _ Hn1). reflexivity.
  - destruct (almacen_put_casos a id0 nom) as [->|(i & l & u & Hp & Hv & ->)];
      [reflexivity|].
    unfold respuestas. pose proof Hp as ([Hl Hu] & Hpi & _).
    destruct (busca_caso a id1) as [(j & l1 & u1 & _ & Hp1)|[_ Hn1]].
    + pose proof (primero_insert a l u nom id1 j l1 u1 Hu Hp1) as Hp1'.
      rewrite decide_False in Hp1'.
      * rewrite (respuestas_get_primero _ _ _ _ _ Hp1').
        rewrite (respuestas_get_primero _ _ _ _ _ Hp1). reflexivity.
      * intros ->. destruct Hp1 as ([_ Hu1] & Hpj & _). apply Hne. congruence.
    + rewrite (respuestas_get_ninguno _ _ (ninguno_insert a l u nom id1 Hu Hn1)).
      rewrite (respuestas_get_ninguno _ _ Hn1). reflexivity.
Qed.

Lemma otro_id_no_afecta_witness :
  parseInt (js "1") <> parseInt (js "2") /\
  respuestas (GET_usuario (js "2")) (almacen_tras (DELETE_usuario (js "1")) inicial) =
    respuestas (GET_usuario (js "2")) inicial /\
  respuestas (GET_usuario (js "2")) (almacen_tras (PUT_usuario (js "1") Bob) inicial) =
    respuestas (GET_usuario (js "2")) inicial.
Proof.
  assert (Hne : parseInt (js "1") <> parseInt (js "2"))
    by (vm_compute; discriminate).
  split; [exact Hne|].
  apply (otro_id_no_afecta inicial (js "1") (js "2") Bob Hne).
Defined.

(** X11. For an id that a record has, DELETE removes from the array the
    entry of the first record with that id and nothing else (the entries
    before it stay, the ones after it move down by one), leaves every object
    as it is, and answers 200 with that record; when the references of the
    array are pairwise distinct, the removed reference is no longer in the
    array. *)
Theorem delete_quita_primero (a : Almacen) (id0 : jsstring)
    (i : nat) (l : loc) (u : Usuario)
    (Hp : primero_con_id a id0 i l u) :
  let a' := almacen_tras (DELETE_usuario id0) a in
  respuestas (DELETE_usuario id0) a =
    [ {| codigo := 200; cuerpo := JsonUsuario u |} ] /\
  monton a' = monton a /\
  S (length (usuarios a')) = length (usuarios a) /\
  (forall j, (j < i)%nat -> usuarios a' !! j = usuarios a !! j) /\
  (forall j, (i <= j)%nat -> usuarios a' !! j = usuarios a !! S j) /\
  (NoDup (usuarios a) -> l ∉ usuarios a').
Proof.
  cbv zeta. unfold respuestas, almacen_tras.
  rewrite (delete_encontrado a id0 i l u Hp).
  cbn [mundo_de almacen enviadas monton usuarios].
  destruct Hp as ([Hl Hu] & _).
  split; [reflexivity|]. split; [reflexivity|]. split; [|split; [|split]].
  - rewrite length_delete by eauto. apply lookup_lt_Some in Hl. lia.
  - intros j Hj. apply list_lookup_delete_lt, Hj.
  - intros j Hj. apply list_lookup_delete_ge, Hj.
  - intros Hnd [k Hk]%list_elem_of_lookup.
    destruct (decide (k < i)%nat) as [Hlt|Hge].
    + rewrite list_lookup_delete_lt in Hk by exact Hlt.
      pose proof (NoDup_lookup _ _ _ _ Hnd Hk Hl). lia.
    + rewrite list_lookup_delete_ge in Hk by lia.
      pose proof (NoDup_lookup _ _ _ _ Hnd Hk Hl). lia.
Qed.

Lemma delete_quita_primero_witness :
  primero_con_id inicial (js "2") 1 1 {| id := 2; nombre := VStr (js "Ana") |} /\
  let a' := almacen_tras (DELETE_usuario (js "2")) inicial in
  respuestas (DELETE_usuario (js "2")) inicial =
    [ {| codigo := 200;
         cuerpo := JsonUsuario {| id := 2; nombre := VStr (js "Ana") |} |} ] /\
  monton a' = monton inicial /\
  S (length (usuarios a')) = length (usuarios inicial) /\
  (forall j, (j < 1)%nat -> usuarios a' !! j = usuarios inicial !! j) /\
  (forall j, (1 <= j)%nat -> usuarios a' !! j = usuarios inicial !! S j) /\
  (NoDup (usuarios inicial) -> 1%nat ∉ usuarios a').
Proof.
  assert (Hp : primero_con_id inicial (js "2") 1 1
                 {| id := 2; nombre := VStr (js "Ana") |})
    by (apply primero_por_calculo; vm_compute; reflexivity).
  split; [exact Hp|].
  apply (delete_quita_primero inicial (js "2") 1 1
           {| id := 2; nombre := VStr (js "Ana") |} Hp).
Defined.

(** X14. An id that parses to no integer is an unknown id: for every store
    and body, GET, PUT and DELETE answer 404 with the text message, leave the
    store as it is and validate nothing. *)
Theorem id_sin_numero (a : Almacen) (id0 : jsstring) (nom : valor)
    (Hnan : parseInt id0 = None) :
  let w := {| almacen := a; statusCode := 404;
              enviadas := [ {| codigo := 404; cuerpo := Texto no_encontrado |} ];
              validadas := [] |} in
  atiende (GET_usuario id0) a = Normal tt w /\
  atiende (PUT_usuario id0 nom) a = Normal tt w /\
  atiende (DELETE_usuario id0) a = Normal tt w.
Proof.
  assert (Hb : busca a id0 = None).
  { apply busca_None. intros i l u _. rewrite Hnan. discriminate. }
  cbv zeta. split; [exact (get_usuario_ausente a id0 Hb)|].
  split; [exact (put_ausente a id0 nom Hb) | exact (delete_ausente a id0 Hb)].
Qed.

Lemma id_sin_numero_witness :
  parseInt (js "abc") = None /\
  let w := {| almacen := inicial; statusCode := 404;
              enviadas := [ {| codigo := 404; cuerpo := Texto no_encontrado |} ];
              validadas := [] |} in
  atiende (GET_usuario (js "abc")) inicial = Normal tt w /\
  atiende (PUT_usuario (js "abc") Bob) inicial = Normal tt w /\
  atiende (DELETE_usuario (js "abc")) inicial = Normal tt w.
Proof.
  split; [reflexivity|].
  apply (id_sin_numero inicial (js "abc") Bob). reflexivity.
Defined.

Lemma delete_luego_get_witness :
  ids_distintos inicial /\
  primero_con_id inicial (js "2") 1 1 {| id := 2; nombre := VStr (js "Ana") |} /\
  atiende (GET_usuario (js "2")) (almacen_tras (DELETE_usuario (js "2")) inicial) =
  Normal tt
    {| almacen := {| monton := monton inicial;
                     usuarios := delete 1%nat (usuarios inicial) |};
       statusCode := 404; enviadas := [respuesta_404]; validadas := [] |}.
Proof.
  assert (Hd : ids_distintos inicial)
    by (apply NoDup_ids_distintos, ids_densos_NoDup; reflexivity).
  assert (Hp : primero_con_id inicial (js "2") 1 1
                 {| id := 2; nombre := VStr (js "Ana") |})
    by (apply primero_por_calculo; vm_compute; reflexivity).
  split; [exact Hd|]. split; [exact Hp|].
  apply (delete_luego_get inicial (js "2") 1 1
           {| id := 2; nombre := VStr (js "Ana") |} Hd Hp).
Defined.

Lemma sin_delete_ids_distintos_witness :
  forallb (fun p => negb (es_delete p))
    [POST_usuarios Bob; PUT_usuario (js "1") Bob; GET_usuarios;
     POST_usuarios (VNum 3)] = true /\
  (refs_validas inicial /\ ids_densos inicial) /\
  NoDup (ids (atiende_todas
                [POST_usuarios Bob; PUT_usuario (js "1") Bob; GET_usuarios;
                 POST_usuarios (VNum 3)] inicial)).
Proof.
  assert (Hi : refs_validas inicial /\ ids_densos inicial).
  { split; [vm_compute; repeat constructor | reflexivity]. }
  split; [reflexivity|]. split; [exact Hi|].
  apply (sin_delete_ids_distintos
           [POST_usuarios Bob; PUT_usuario (js "1") Bob; GET_usuarios;
            POST_usuarios (VNum 3)] inicial); [reflexivity | exact Hi].
Defined.

(** X15. In a store whose ids are 1, ..., n, deleting a record that is
    not the last one and then creating a record gives the new record the id
    n, which the last of the old records still has: the array then shows the
    same id twice. *)
Theorem delete_y_post_repiten_id (a : Almacen) (id0 : jsstring) (nom : valor)
    (i : nat) (l : loc) (u : Usuario)
    (Hr : refs_validas a) (Hd : ids_densos a)
    (Hp : primero_con_id a id0 i l u)
    (Hi : (S i < length (usuarios a))%nat)
    (Hv : nombre_valido nom) :
  let a' := atiende_todas [DELETE_usuario id0; POST_usuarios nom] a in
  ids a' = delete i (ids a) ++ [Some (Z.of_nat (length (usuarios a)))] /\
  Some (Z.of_nat (length (usuarios a))) ∈ delete i (ids a) /\
  ~ NoDup (ids a').
Proof.
  cbv zeta. cbn [atiende_todas fold_left].
  assert (Ed : almacen_tras (DELETE_usuario id0) a =
               {| monton := monton a; usuarios := delete i (usuarios a) |}).
  { unfold almacen_tras. rewrite (delete_encontrado a id0 i l u Hp). reflexivity. }
  rewrite Ed.
  assert (Hr' : refs_validas
                  {| monton := monton a; usuarios := delete i (usuarios a) |})
    by (apply Forall_delete, Hr).
  assert (Hlen : S (length (delete i (usuarios a))) = length (usuarios a)).
  { rewrite length_delete; [lia|]. apply lookup_lt_is_Some. lia. }
  assert (Ep : ids (almacen_tras (POST_usuarios nom)
                      {| monton := monton a; usuarios := delete i (usuarios a) |})
               = delete i (ids a) ++ [Some (Z.of_nat (length (usuarios a)))]).
  { unfold almacen_tras.
    pose proof (post_valido {| monton := monton a;
                               usuarios := delete i (usuarios a) |} nom
                  (proj2 (validarUsuario_acepta nom) Hv)) as E.
    cbv zeta in E. rewrite E. cbn [mundo_de almacen].
    pose proof (ids_post {| monton := monton a;
                            usuarios := delete i (usuarios a) |}
                  {| id := Z.of_nat (length (delete i (usuarios a))) + 1;
                     nombre := nom |} Hr') as Ei.
    cbn [monton usuarios id] in Ei |- *. rewrite Ei, ids_delete.
    do 3 f_equal. lia. }
  assert (Hin : Some (Z.of_nat (length (usuarios a))) ∈ delete i (ids a)).
  { apply list_elem_of_lookup. exists (pred (pred (length (usuarios a)))).
    rewrite list_lookup_delete_ge by lia.
    replace (S (pred (pred (length (usuarios a)))))
      with (pred (length (usuarios a))) by lia.
    rewrite Hd. change (map ?f ?x) with (f <$> x).
    rewrite list_lookup_fmap, lookup_seq_lt by lia. cbn. do 2 f_equal. lia. }
  split; [exact Ep|]. split; [exact Hin|].
  rewrite Ep. intros Hnd. apply NoDup_app in Hnd as (_ & Hdis & _).
  apply (Hdis _ Hin). apply list_elem_of_singleton. reflexivity.
Qed.

Lemma delete_y_post_repiten_id_witness :
  refs_validas inicial /\ ids_densos inicial /\
  primero_con_id inicial (js "2") 1 1 {| id := 2; nombre := VStr (js "Ana") |} /\
  (2 < length (usuarios inicial))%nat /\
  nombre_valido Bob /\
  let a' := atiende_todas [DELETE_usuario (js "2"); POST_usuarios Bob] inicial in
  ids a' = delete 1%nat (ids inicial)
             ++ [Some (Z.of_nat (length (usuarios inicial)))] /\
  Some (Z.of_nat (length (usuarios inicial))) ∈ delete 1%nat (ids inicial) /\
  ~ NoDup (ids a').
Proof.
  assert (Hr : refs_validas inicial) by (vm_compute; repeat constructor).
  assert (Hd : ids_densos inicial) by reflexivity.
  assert (Hp : primero_con_id inicial (js "2") 1 1
                 {| id := 2; nombre := VStr (js "Ana") |})
    by (apply primero_por_calculo; vm_compute; reflexivity).
  assert (Hi : (2 < length (usuarios inicial))%nat) by (vm_compute; lia).
  assert (Hv : nombre_valido Bob)
    by (exists (js "Bob"); split; [reflexivity | vm_compute; lia]).
  split; [exact Hr|]. split; [exact Hd|]. split; [exact Hp|].
  split; [exact Hi|]. split; [exact Hv|].
  apply (delete_y_post_repiten_id inicial (js "2") Bob 1 1
           {| id := 2; nombre := VStr (js "Ana") |} Hr Hd Hp Hi Hv).
Defined.

(** X16. POST and PUT apply the same rule to the name: for a name that is
    no string of at least three code units, POST and a PUT on an id that a
    record has both answer 400 with the same non-empty message. *)
Theorem post_y_put_rechazan_igual (a : Almacen) (id0 : jsstring) (nom : valor)
    (i : nat) (l : loc) (u : Usuario)
    (Hp : primero_con_id a id0 i l u) (Hv : ~ nombre_valido nom) :
  exists m, m <> [] /\
    respuestas (POST_usuarios nom) a =
      [ {| codigo := 400; cuerpo := Texto m |} ] /\
    respuestas (PUT_usuario id0 nom) a =
      [ {| codigo := 400; cuerpo := Texto m |} ].
Proof.
  destruct (no_valido_rechaza nom Hv) as [e Ev].
  pose proof (primero_con_id_busca _ _ _ _ _ Hp) as Hb.
  destruct (post_invalido a nom e Ev) as (d & Hd & Hm & E1).
  destruct (put_invalido a id0 nom l e Hb Ev) as (d' & Hd' & _ & E2).
  assert (d' = d) as -> by congruence.
  exists (Joi.message d). split; [exact Hm|].
  unfold respuestas. rewrite E1, E2. split; reflexivity.
Qed.

Lemma post_y_put_rechazan_igual_witness :
  primero_con_id inicial (js "2") 1 1 {| id := 2; nombre := VStr (js "Ana") |} /\
  ~ nombre_valido (VStr (js "Bo")) /\
  exists m, m <> [] /\
    respuestas (POST_usuarios (VStr (js "Bo"))) inicial =
      [ {| codigo := 400; cuerpo := Texto m |} ] /\
    respuestas (PUT_usuario (js "2") (VStr (js "Bo"))) inicial =
      [ {| codigo := 400; cuerpo := Texto m |} ].
Proof.
  assert (Hp : primero_con_id inicial (js "2") 1 1
                 {| id := 2; nombre := VStr (js "Ana") |})
    by (apply primero_por_calculo; vm_compute; reflexivity).
  assert (Hv : ~ nombre_valido (VStr (js "Bo")))
    by (eapply rechaza_no_valido; reflexivity).
  split; [exact Hp|]. split; [exact Hv|].
  apply (post_y_put_rechazan_igual inicial (js "2") (VStr (js "Bo")) 1 1
           {| id := 2; nombre := VStr (js "Ana") |} Hp Hv).
Defined.

Lemma todas_bien_formado ps a :
  bien_formado a -> bien_formado (atiende_todas ps a).
Proof.
  revert a. induction ps as [|p ps IH]; intros a H; [exact H|].
  cbn. apply IH, paso_bien_formado, H.
Qed.

Lemma primero_no_ninguno a id0 i l u :
  primero_con_id a id0 i l u -> ninguno_con_id a id0 -> False.
Proof. intros (Hreg & Hp & _) Hn. exact (Hn i l u Hreg Hp). Qed.

(** X17. In a store whose ids are 1, ..., n, deleting the last record and
    then creating a record gives the id n of the deleted record to the new
    one, which is another object. *)
Theorem delete_ultimo_y_post_reusan_id (a : Almacen) (id0 : jsstring)
    (nom : valor) (i : nat) (l : loc) (u : Usuario)
    (Hr : refs_validas a) (Hd : ids_densos a)
    (Hp : primero_con_id a id0 i l u)
    (Hi : S i = length (usuarios a))
    (Hv : nombre_valido nom) :
  let a' := atiende_todas [DELETE_usuario id0; POST_usuarios nom] a in
  id u = Z.of_nat (length (usuarios a)) /\
  registros a' !! i =
    Some (Some {| id := Z.of_nat (length (usuarios a)); nombre := nom |}) /\
  usuarios a' !! i = Some (length (monton a)) /\
  l <> length (monton a).
Proof.
  cbv zeta. cbn [atiende_todas fold_left].
  assert (Ed : almacen_tras (DELETE_usuario id0) a =
               {| monton := monton a; usuarios := delete i (usuarios a) |}).
  { unfold almacen_tras. rewrite (delete_encontrado a id0 i l u Hp). reflexivity. }
  rewrite Ed. destruct Hp as ([Hl Hu] & _).
  assert (Hlen : length (delete i (usuarios a)) = i).
  { rewrite length_delete by eauto. lia. }
  unfold almacen_tras.
  pose proof (post_valido {| monton := monton a;
                             usuarios := delete i (usuarios a) |} nom
                (proj2 (validarUsuario_acepta nom) Hv)) as E.
  cbv zeta in E. rewrite E. cbn [mundo_de almacen monton usuarios]. clear E.
  split; [|split; [|split]].
  - pose proof (es_registro_ids a i l u (conj Hl Hu)) as Hid.
    rewrite Hd in Hid. change (map ?f ?x) with (f <$> x) in Hid.
    rewrite list_lookup_fmap, lookup_seq_lt in Hid by lia. cbn in Hid.
    injection Hid as Hid. lia.
  - unfold registros. cbn [monton usuarios].
    change (map ?f ?x) with (f <$> x). rewrite list_lookup_fmap.
    rewrite list_lookup_middle by (symmetry; exact Hlen). cbn.
    rewrite list_lookup_middle by reflexivity.
    do 3 f_equal. rewrite Hlen. lia.
  - apply list_lookup_middle. symmetry; exact Hlen.
  - unfold refs_validas in Hr. rewrite Forall_lookup in Hr.
    pose proof (Hr _ _ Hl). lia.
Qed.

Lemma delete_ultimo_y_post_reusan_id_witness :
  refs_validas inicial /\ ids_densos inicial /\
  primero_con_id inicial (js "4") 3 3 {| id := 4; nombre := VStr (js "Luis") |} /\
  4%nat = length (usuarios inicial) /\
  nombre_valido Bob /\
  let a' := atiende_todas [DELETE_usuario (js "4"); POST_usuarios Bob] inicial in
  id {| id := 4; nombre := VStr (js "Luis") |}
    = Z.of_nat (length (usuarios inicial)) /\
  registros a' !! 3%nat =
    Some (Some {| id := Z.of_nat (length (usuarios inicial)); nombre := Bob |}) /\
  usuarios a' !! 3%nat = Some (length (monton inicial)) /\
  3%nat <> length (monton inicial).
Proof.
  assert (Hr : refs_validas inicial) by (vm_compute; repeat constructor).
  assert (Hd : ids_densos inicial) by reflexivity.
  assert (Hp : primero_con_id inicial (js "4") 3 3
                 {| id := 4; nombre := VStr (js "Luis") |})
    by (apply primero_por_calculo; vm_compute; reflexivity).
  assert (Hv : nombre_valido Bob)
    by (exists (js "Bob"); split; [reflexivity | vm_compute; lia]).
  split; [exact Hr|]. split; [exact Hd|]. split; [exact Hp|].
  split; [reflexivity|]. split; [exact Hv|].
  apply (delete_ultimo_y_post_reusan_id inicial (js "4") Bob 3 3
           {| id := 4; nombre := VStr (js "Luis") |} Hr Hd Hp eq_refl Hv).
Defined.

(** X18. From a well-formed store, after any sequence of requests, every
    further request ends without an exception and gets exactly one
    response, with status 200, 400 or 404. *)
Theorem servidor_siempre_responde (ps : list Peticion) (p : Peticion)
    (a : Almacen) (H : bien_formado a) :
  exists w r,
    atiende p (atiende_todas ps a) = Normal tt w /\
    enviadas w = [r] /\
    (codigo r = 200 \/ codigo r = 400 \/ codigo r = 404).
Proof.
  destruct (todas_bien_formado ps a H) as (Hr & _).
  destruct (atiende_efecto p _ (fun _ => Hr)) as (a' & r & vs & E & Hef).
  eexists _, r. split; [exact E|]. cbn. split; [reflexivity|].
  destruct Hef; cbn; auto.
Qed.

Lemma servidor_siempre_responde_witness :
  bien_formado inicial /\
  exists w r,
    atiende GET_usuarios
      (atiende_todas [DELETE_usuario (js "1"); POST_usuarios Bob;
                      DELETE_usuario (js "4")] inicial) = Normal tt w /\
    enviadas w = [r] /\
    (codigo r = 200 \/ codigo r = 400 \/ codigo r = 404).
Proof.
  split; [exact inicial_bien_formado|].
  apply (servidor_siempre_responde
           [DELETE_usuario (js "1"); POST_usuarios Bob; DELETE_usuario (js "4")]
           GET_usuarios inicial).
  exact inicial_bien_formado.
Defined.

(** X19. The calls of the validator: a GET or a DELETE makes none, a POST
    makes exactly one, on the nombre of the body, and a PUT makes exactly
    one when a record has the id and none when no record has it. *)
Theorem llamadas_al_validador (p : Peticion) (a : Almacen) :
  validadas (mundo_de (atiende p a)) =
  match p with
  | POST_usuarios nom => [nom]
  | PUT_usuario id0 nom => if busca a id0 is Some _ then [nom] else []
  | _ => []
  end.
Proof.
  destruct p as [| |id0|nom|id0 nom|id0].
  - reflexivity.
  - desarrolla. destruct (mapM _ _); reflexivity.
  - destruct (busca_caso a id0) as [(i & l & u & Hb & ([_ Hu] & _))|[Hb _]].
    + rewrite (get_usuario_encontrado a id0 l u Hb Hu). reflexivity.
    + rewrite (get_usuario_ausente a id0 Hb). reflexivity.
  - destruct (Joi.error (validarUsuario nom)) as [e|] eqn:Ev.
    + destruct (post_invalido a nom e Ev) as (d & _ & _ & E).
      rewrite E. reflexivity.
    + pose proof (post_valido a nom Ev) as E. cbv zeta in E.
      rewrite E. reflexivity.
  - destruct (busca_caso a id0) as [(i & l & u & Hb & H)|[Hb _]]; rewrite Hb.
    + destruct (Joi.error (validarUsuario nom)) as [e|] eqn:Ev.
      * destruct (put_invalido a id0 nom l e Hb Ev) as (d & _ & _ & E).
        rewrite E. reflexivity.
      * apply validarUsuario_acepta in Ev.
        rewrite (put_valido_primero a id0 nom i l u H Ev). reflexivity.
    + rewrite (put_ausente a id0 nom Hb). reflexivity.
  - destruct (busca_caso a id0) as [(i & l & u & Hb & H)|[Hb _]].
    + rewrite (delete_encontrado a id0 i l u H). reflexivity.
    + rewrite (delete_ausente a id0 Hb). reflexivity.
Qed.

(** X20. The status of a PUT, for every store, id and body: 404 exactly
    when no record has the id, 400 exactly when a record has it and the name
    is not valid, 200 exactly when a record has it and the name is valid.  An
    unknown id comes before an invalid name. *)
Theorem put_estado (a : Almacen) (id0 : jsstring) (nom : valor) :
  exists r,
    respuestas (PUT_usuario id0 nom) a = [r] /\
    (codigo r = 404 <-> ninguno_con_id a id0) /\
    (codigo r = 400 <->
       (exists i l u, primero_con_id a id0 i l u) /\ ~ nombre_valido nom) /\
    (codigo r = 200 <->
       (exists i l u, primero_con_id a id0 i l u) /\ nombre_valido nom).
Proof.
  unfold respuestas.
  destruct (busca_caso a id0) as [(i & l & u & Hb & H)|[Hb H]].
  - destruct (Joi.error (validarUsuario nom)) as [e|] eqn:Ev.
    + destruct (put_invalido a id0 nom l e Hb Ev) as (d & _ & _ & E).
      pose proof (rechaza_no_valido nom e Ev) as Hno.
      rewrite E. eexists. split; [reflexivity|]. cbn.
      split; [|split]; (split; [try discriminate|]).
      * intros Hn. destruct (primero_no_ninguno _ _ _ _ _ H Hn).
      * intros _. eauto 6.
      * reflexivity.
      * intros [_ Hv]. contradiction.
    + apply validarUsuario_acepta in Ev.
      rewrite (put_valido_primero a id0 nom i l u H Ev).
      eexists. split; [reflexivity|]. cbn.
      split; [|split]; (split; [try discriminate|]).
      * intros Hn. destruct (primero_no_ninguno _ _ _ _ _ H Hn).
      * intros [_ Hno]. contradiction.
      * intros _. eauto 6.
      * reflexivity.
  - rewrite (put_ausente a id0 nom Hb).
    eexists. split; [reflexivity|]. cbn.
    split; [|split]; (split; [try discriminate|]).
    + intros _. exact H.
    + reflexivity.
    + intros [(i & l & u & Hp) _]. destruct (primero_no_ninguno _ _ _ _ _ Hp H).
    + intros [(i & l & u & Hp) _]. destruct (primero_no_ninguno _ _ _ _ _ Hp H).
Qed.
